(** * dwg2mvt front end: the upload/polling component and the map component

    A shallow embedding of [frontend/src/components/Uploader.vue] and of the
    map component ([Map.vue]) together with [frontend/src/types.ts].

    The two Vue components are event driven: every handler runs to its next
    [await] without interruption.  A handler is therefore embedded as a
    function of the component's refs that returns the new refs and the list
    of effects it issued (requests, timers, emitted events, MapLibre calls).
    An [async] function is cut at its [await]s into one handler per segment.
    A small world around the handlers keeps the pending timers and the
    requests in flight, and feeds their completions back as events. *)

From Stdlib Require Import ZArith QArith Qabs Qround Lia Ascii Sorted.
From stdpp Require Import base gmap strings list pretty.

Open Scope Z_scope.

(** ** JavaScript values as the components use them *)

Module Js.

(** [x || d] on an optional string: [undefined] and the empty string are
    falsy. *)
Definition or_str (x : option string) (d : string) : string :=
  match x with
  | Some s => if decide (s = "") then d else s
  | None => d
  end.

(** [x || 0] on an optional number: [undefined] and [0] are falsy.  Numbers
    that the server reports as job progress are integers (0..100). *)
Definition or_zero (x : option Z) : Z :=
  match x with
  | Some n => if decide (n = 0) then 0 else n
  | None => 0
  end.

(** Truthiness of an optional string. *)
Definition truthy (x : option string) : bool :=
  match x with
  | Some s => bool_decide (s ≠ "")
  | None => false
  end.

(** [String.prototype.toLowerCase], on the UTF-8 bytes of the string: the
    ASCII capitals are mapped to their small letters.  No character outside
    ASCII has [.], [d], [w] or [g] in its lower-case form, so for the test
    [toLowerCase().endsWith('.dwg')] this agrees with the Unicode mapping. *)
Definition lower_ascii (c : ascii) : ascii :=
  let n := Ascii.N_of_ascii c in
  if ((65 <=? n) && (n <=? 90))%N then Ascii.ascii_of_N (n + 32) else c.

Fixpoint toLowerCase (s : string) : string :=
  match s with
  | EmptyString => EmptyString
  | String c s' => String (lower_ascii c) (toLowerCase s')
  end.

(** [s.endsWith(suf)]: some tail of [s] is [suf]. *)
Fixpoint endsWith (s suf : string) : bool :=
  if String.eqb s suf then true
  else match s with
       | EmptyString => false
       | String _ s' => endsWith s' suf
       end.

(** [s.startsWith('/')]. *)
Definition startsWithSlash (s : string) : bool :=
  match s with
  | String c _ => bool_decide (c = "/"%char)
  | EmptyString => false
  end.

(** A JavaScript [number]: every finite double is a rational, and the order
    and [Math.abs] on finite doubles are those of the rationals, so the
    finite values are taken in [Q]; the three special values are kept. *)
Inductive number : Type :=
| Fin (q : Q)
| PosInf
| NegInf
| NaN.

(** [Number.isFinite(n)]; [None] is [undefined] (a missing array element). *)
Definition isFinite (n : option number) : bool :=
  match n with
  | Some (Fin _) => true
  | _ => false
  end.

Definition Qltb (x y : Q) : bool := negb (Qle_bool y x).

(** [Math.abs(n) < c] for a finite constant [c]. *)
Definition abs_lt (n : option number) (c : Q) : bool :=
  match n with
  | Some (Fin q) => Qltb (Qabs q) c
  | _ => false
  end.

(** [n >= c] and [n <= c] for a finite constant [c]: comparisons with
    [NaN] and with [undefined] (which converts to [NaN]) are false. *)
Definition ge_const (n : option number) (c : Q) : bool :=
  match n with
  | Some (Fin q) => Qle_bool c q
  | Some PosInf => true
  | _ => false
  end.

Definition le_const (n : option number) (c : Q) : bool :=
  match n with
  | Some (Fin q) => Qle_bool q c
  | Some NegInf => true
  | _ => false
  end.

(** *** Arithmetic on doubles

    The operators [/] and [*] round their exact result to the nearest
    double (IEEE 754 binary64, ties to the even significand).  The values
    that occur below are positive and far from the ends of the exponent
    range (quotients and products of integers under [2^64]), so a double is
    [m * 2^(e - 52)] with a significand [m] of 53 bits. *)

(** [a / b] rounded to the nearest integer, ties to the even one
    ([0 <= a], [0 < b]). *)
Definition round_half_even (a b : Z) : Z :=
  let q := a `div` b in
  let r := a `mod` b in
  if 2 * r <? b then q
  else if b <? 2 * r then q + 1
  else if Z.even q then q else q + 1.

(** The double nearest to the rational [x], for [0 <= x]: with [e] the
    exponent of [x] ([2^e <= x < 2^(e+1)]), the significand is
    [x / 2^(e - 52)] rounded to an integer. *)
Definition binary64 (x : Q) : Q :=
  let num := Qnum x in
  let den := Zpos (Qden x) in
  if num <=? 0 then 0%Q else
  let e0 := Z.log2 num - Z.log2 den in
  let e := if num * 2 ^ Z.max 0 (- e0) <? den * 2 ^ Z.max 0 e0 then e0 - 1 else e0 in
  let s := 52 - e in
  let m := round_half_even (num * 2 ^ Z.max 0 s) (den * 2 ^ Z.max 0 (- s)) in
  (inject_Z m * Qpower 2 (- s))%Q.

(** An integer as a [number] (exact under [2^53]). *)
Definition of_integer (n : Z) : Q := binary64 (inject_Z n).

(** [x / y] and [x * y] on finite doubles, [0 <= x] and [0 < y]. *)
Definition div (x y : Q) : Q := binary64 (x / y).

Definition mul (x y : Q) : Q := binary64 (x * y).

(** [Math.round(x)]: the nearest integer, halves towards [+Infinity]. *)
Definition Math_round (x : Q) : Z := Qfloor (x + (1 # 2))%Q.

End Js.

(** ** [types.ts] *)

Module ConvertResult.

Record t : Type := mk {
  job_id : string;
  status : string;
  progress : option Z;
  message : option string;
  dxf_path : option string;
  gpkg_path : option string;
  layer_name : option string;
  mvt_url : option string;
  raster_url : option string;
  wmts_url : option string;
  bbox : option (list Js.number)
}.

End ConvertResult.

(** ** Handlers: functions of the refs that log their effects *)

Module Eff.

(** A handler over refs [S] issuing effects [E]. *)
Definition Act (S E A : Type) : Type := S → A * S * list E.

Section Act.
Context {S E : Type}.

Definition ret {A} (a : A) : Act S E A := λ s, (a, s, []).

Definition bind {A B} (m : Act S E A) (k : A → Act S E B) : Act S E B :=
  λ s, let '(a, s1, e1) := m s in
       let '(b, s2, e2) := k a s1 in
       (b, s2, e1 ++ e2).

Definition gets {A} (f : S → A) : Act S E A := λ s, (f s, s, []).
Definition modify (f : S → S) : Act S E unit := λ s, (tt, f s, []).
Definition tell (e : E) : Act S E unit := λ s, (tt, s, [e]).

(** The refs and the effects a handler leaves. *)
Definition exec {A} (m : Act S E A) (s : S) : S := snd (fst (m s)).
Definition effects {A} (m : Act S E A) (s : S) : list E := snd (m s).
End Act.

#[global] Instance act_ret {S E} : MRet (Act S E) := λ A, ret.
#[global] Instance act_bind {S E} : MBind (Act S E) := λ A B k m, bind m k.

End Eff.

Import Eff.

(** ** [Uploader.vue] *)

Module Uploader.

(** The selected [File]; the component reads its name only. *)
Record File : Type := { name : string; size : Z }.

(** The [detail] field of a failure body: a text, or an object (or array)
    that may carry a [msg]. *)
Inductive Detail : Type :=
| DetailText (s : string)
| DetailObject (msg : option string).

(** [JSON.parse(req.responseText)] when it does not throw: the fields of
    [ConvertResult] that [onload] reads on success, and [detail], which it
    reads on failure ([message] is shared). *)
Record ResponseJson : Type := {
  body : ConvertResult.t;
  detail : option Detail
}.

(** What [emit('error', msg)] carries: a text, or the [detail] object
    itself when it has no usable [msg]. *)
Inductive ErrPayload : Type :=
| ErrText (s : string)
| ErrDetail (d : Detail).

(** How a status request ends: [fetch] or [r.json()] rejects, the response
    is not ok, or the body is a [ConvertResult]. *)
Inductive FetchOutcome : Type :=
| Rejected
| NotOk
| Ok (res : ConvertResult.t).

Inductive Effect : Type :=
| EmitError (msg : ErrPayload)             (* emit('error', msg) *)
| EmitConvert (res : ConvertResult.t)      (* emit('convert', res) *)
| FetchStatus (jobId : string)             (* fetch(`${apiBase}/status/${jobId}`) *)
| SetTimeout (jobId : string) (ms : Z)     (* setTimeout(poll, ms), poll closed over jobId *)
| XhrSend (id : nat) (f : File)            (* req.open('POST', `${apiBase}/convert`); req.send(form) *)
| XhrAbort (id : nat)                      (* xhr.value.abort() *)
| ConsoleError.                            (* console.error(err) *)

(** The refs of the component.  An [XMLHttpRequest] is known by the number
    it got when it was created. *)
Record State : Type := {
  loading : bool;
  progress : Z;
  progressMsg : string;
  file : option File;
  showDetails : bool;
  logs : list string;
  currentJobId : option string;
  xhr : option nat
}.

Definition init : State :=
  {| loading := false; progress := 0; progressMsg := ""; file := None;
     showDetails := false; logs := []; currentJobId := None; xhr := None |}.

Definition set_loading (b : bool) (s : State) : State :=
  {| loading := b; progress := progress s; progressMsg := progressMsg s;
     file := file s; showDetails := showDetails s; logs := logs s;
     currentJobId := currentJobId s; xhr := xhr s |}.
Definition set_progress (n : Z) (s : State) : State :=
  {| loading := loading s; progress := n; progressMsg := progressMsg s;
     file := file s; showDetails := showDetails s; logs := logs s;
     currentJobId := currentJobId s; xhr := xhr s |}.
Definition set_progressMsg (m : string) (s : State) : State :=
  {| loading := loading s; progress := progress s; progressMsg := m;
     file := file s; showDetails := showDetails s; logs := logs s;
     currentJobId := currentJobId s; xhr := xhr s |}.
Definition set_file (f : option File) (s : State) : State :=
  {| loading := loading s; progress := progress s; progressMsg := progressMsg s;
     file := f; showDetails := showDetails s; logs := logs s;
     currentJobId := currentJobId s; xhr := xhr s |}.
Definition set_showDetails (b : bool) (s : State) : State :=
  {| loading := loading s; progress := progress s; progressMsg := progressMsg s;
     file := file s; showDetails := b; logs := logs s;
     currentJobId := currentJobId s; xhr := xhr s |}.
Definition set_logs (l : list string) (s : State) : State :=
  {| loading := loading s; progress := progress s; progressMsg := progressMsg s;
     file := file s; showDetails := showDetails s; logs := l;
     currentJobId := currentJobId s; xhr := xhr s |}.
Definition set_currentJobId (j : option string) (s : State) : State :=
  {| loading := loading s; progress := progress s; progressMsg := progressMsg s;
     file := file s; showDetails := showDetails s; logs := logs s;
     currentJobId := j; xhr := xhr s |}.
Definition set_xhr (x : option nat) (s : State) : State :=
  {| loading := loading s; progress := progress s; progressMsg := progressMsg s;
     file := file s; showDetails := showDetails s; logs := logs s;
     currentJobId := currentJobId s; xhr := x |}.

Definition Handler : Type := Act State Effect unit.

Definition skip : Handler := mret tt.
Definition emit_error (msg : string) : Handler := tell (EmitError (ErrText msg)).

(** [if (c) stmt] without an [else]. *)
Definition when (c : bool) (h : Handler) : Handler := if c then h else skip.

(** [onFileChange]: [file.value = target.files?.[0] ?? null]. *)
Definition onFileChange (picked : option File) : Handler :=
  modify (set_file picked).

(** The button under the modal: [showDetails = !showDetails]. *)
Definition toggleDetails : Handler :=
  modify (λ s, set_showDetails (negb (showDetails s)) s).

(** [addLog].  [last] is [undefined] on the empty array, which differs from
    every string. *)
Definition addLog (msg : string) : Handler :=
  if decide (msg = "") then skip
  else
    l ← gets logs;
    if decide (last l = Some msg) then skip
    else modify (set_logs (l ++ [msg])).

(** [req.onabort]. *)
Definition onabort : Handler := modify (set_xhr None).

(** [cancelUpload].  [abort()] on a request in flight dispatches its
    [abort] event before it returns, which runs [onabort]. *)
Definition cancelUpload : Handler :=
  x ← gets xhr;
  match x with
  | Some id => tell (XhrAbort id);; onabort;; modify (set_xhr None)
  | None => skip
  end;;
  modify (set_loading false);;
  modify (set_currentJobId None);;
  modify (set_logs []);;
  emit_error "已取消上传".

(** [poll], up to [await fetch(...)]. *)
Definition poll (jobId : string) : Handler :=
  l ← gets loading;
  c ← gets currentJobId;
  if negb l || bool_decide (c ≠ Some jobId) then skip
  else tell (FetchStatus jobId).

(** [poll], from the end of the request on.  Between [await fetch(...)] and
    [await r.json()] no ref is read or written, so the two are one event. *)
Definition poll_resume (jobId : string) (out : FetchOutcome) : Handler :=
  match out with
  | Rejected =>
      tell ConsoleError;;
      l ← gets loading;
      when l (tell (SetTimeout jobId 2000))
  | NotOk =>
      l ← gets loading;
      when l (tell (SetTimeout jobId 2000))
  | Ok res =>
      modify (set_progress (Js.or_zero (ConvertResult.progress res)));;
      modify (set_progressMsg (Js.or_str (ConvertResult.message res) ""));;
      addLog (Js.or_str (ConvertResult.message res) "");;
      if decide (ConvertResult.status res = "done") then
        modify (set_loading false);;
        tell (EmitConvert res)
      else if decide (ConvertResult.status res = "error") then
        modify (set_loading false);;
        emit_error (Js.or_str (ConvertResult.message res) "转换失败")
      else
        tell (SetTimeout jobId 1000)
  end.

(** [pollStatus]. *)
Definition pollStatus (jobId : string) : Handler :=
  l ← gets loading;
  if negb l then skip else poll jobId.

(** The test that opens [onSubmit]:
    [!file.value || !file.value.name.toLowerCase().endsWith('.dwg')]. *)
Definition not_a_dwg (f : option File) : bool :=
  match f with
  | None => true
  | Some fl => negb (Js.endsWith (Js.toLowerCase (name fl)) ".dwg")
  end.

(** [Math.round((e.loaded / e.total) * 100)], in the arithmetic of doubles:
    the quotient is rounded to a double, so is its product with 100, and
    [Math.round] takes the nearest integer of that ([29 / 200] gives 14, not
    15).  [e.loaded] and [e.total] are [unsigned long long], and [e.total] is
    not 0 when [e.lengthComputable] holds (XMLHttpRequest standard, fire a
    progress event), which is the only case in which [onprogress] divides:
    the function is meant for [0 <= loaded < 2^64] and [0 < total < 2^64],
    the progress events of [World.enabled]. *)
Definition percent (loaded total : Z) : Z :=
  Js.Math_round
    (Js.mul (Js.div (Js.of_integer loaded) (Js.of_integer total))
            (Js.of_integer 100)).

(** [req.upload.onprogress]. *)
Definition onprogress (lengthComputable : bool) (loaded total : Z) : Handler :=
  if lengthComputable then
    modify (set_progress (percent loaded total));;
    modify (set_progressMsg ("正在上传... " +:+ pretty (percent loaded total) +:+ "%"))
  else skip.

(** [err.detail?.msg || err.detail || err.message || msg]. *)
Definition failure_text (err : ResponseJson) (msg : string) : ErrPayload :=
  match detail err with
  | Some (DetailObject m) =>
      if Js.truthy m then ErrText (Js.or_str m msg)
      else ErrDetail (DetailObject m)
  | Some (DetailText s) =>
      if decide (s = "") then ErrText (Js.or_str (ConvertResult.message (body err)) msg)
      else ErrText s
  | None => ErrText (Js.or_str (ConvertResult.message (body err)) msg)
  end.

(** [req.onload]; [responseText] is [None] when [JSON.parse] throws. *)
Definition onload (status : Z) (responseText : option ResponseJson) : Handler :=
  modify (set_xhr None);;
  if (200 <=? status) && (status <? 300) then
    match responseText with
    | Some json =>
        let res := body json in
        if decide (ConvertResult.status res = "error") then
          modify (set_loading false);;
          emit_error (Js.or_str (ConvertResult.message res) "转换失败")
        else
          addLog "上传完成，等待处理...";;
          modify (set_progress 0);;
          modify (set_progressMsg "准备转换...");;
          modify (set_currentJobId (Some (ConvertResult.job_id res)));;
          pollStatus (ConvertResult.job_id res)
    | None =>
        modify (set_loading false);;
        emit_error "响应解析失败"
    end
  else
    modify (set_loading false);;
    let msg := "请求失败 " +:+ pretty status in
    tell (EmitError match responseText with
                    | Some err => failure_text err msg
                    | None => ErrText msg
                    end).

(** [req.onerror]. *)
Definition onerror : Handler :=
  modify (set_xhr None);;
  modify (set_loading false);;
  emit_error "网络错误".

(** [onSubmit]; [id] names the [XMLHttpRequest] it creates. *)
Definition onSubmit (id : nat) : Handler :=
  f ← gets file;
  if not_a_dwg f then emit_error "请选择 .dwg 文件"
  else
    modify (set_loading true);;
    modify (set_progress 0);;
    modify (set_progressMsg "正在上传...");;
    modify (set_logs ["开始上传..."]);;
    modify (set_showDetails false);;
    emit_error "";;
    modify (set_xhr (Some id));;
    match f with
    | Some fl => tell (XhrSend id fl)
    | None => skip
    end.

End Uploader.

(** ** The page around the uploader: timers and requests in flight *)

Module World.
Import Uploader.

(** What the browser may deliver to the component. *)
Inductive Event : Type :=
| EvFileChange (picked : option File)
| EvSubmit
| EvToggleDetails
| EvCancel
| EvUploadProgress (id : nat) (lengthComputable : bool) (loaded total : Z)
| EvUploadLoad (id : nat) (status : Z) (responseText : option ResponseJson)
| EvUploadError (id : nat)
| EvTimer (jobId : string) (ms : Z)
| EvFetchDone (jobId : string) (out : FetchOutcome).

(** The component, the timers set and not yet fired, the status requests
    and the uploads in flight, the number of the next [XMLHttpRequest], and
    every effect issued so far, oldest first. *)
Record t : Type := {
  ui : State;
  timers : list (string * Z);
  fetches : list string;
  uploads : list nat;
  fresh : nat;
  trace : list Effect
}.

Definition init : t :=
  {| ui := Uploader.init; timers := []; fetches := []; uploads := [];
     fresh := 0%nat; trace := [] |}.

(** Remove the first occurrence of [x]. *)
Fixpoint remove_first `{EqDecision A} (x : A) (l : list A) : list A :=
  match l with
  | [] => []
  | y :: l' => if decide (x = y) then l' else y :: remove_first x l'
  end.

(** The browser's part of one effect. *)
Definition absorb (w : t) (e : Effect) : t :=
  match e with
  | SetTimeout j ms =>
      {| ui := ui w; timers := timers w ++ [(j, ms)]; fetches := fetches w;
         uploads := uploads w; fresh := fresh w; trace := trace w |}
  | FetchStatus j =>
      {| ui := ui w; timers := timers w; fetches := fetches w ++ [j];
         uploads := uploads w; fresh := fresh w; trace := trace w |}
  | XhrSend id _ =>
      {| ui := ui w; timers := timers w; fetches := fetches w;
         uploads := uploads w ++ [id]; fresh := S id; trace := trace w |}
  | XhrAbort id =>
      {| ui := ui w; timers := timers w; fetches := fetches w;
         uploads := remove_first id (uploads w); fresh := fresh w; trace := trace w |}
  | _ => w
  end.

(** Run a handler on the component and hand its effects to the browser. *)
Definition deliver (h : Handler) (w : t) : t :=
  foldl absorb
    {| ui := exec h (ui w); timers := timers w; fetches := fetches w;
       uploads := uploads w; fresh := fresh w;
       trace := trace w ++ effects h (ui w) |}
    (effects h (ui w)).

Definition drop_timer (j : string) (ms : Z) (w : t) : t :=
  {| ui := ui w; timers := remove_first (j, ms) (timers w); fetches := fetches w;
     uploads := uploads w; fresh := fresh w; trace := trace w |}.

Definition drop_fetch (j : string) (w : t) : t :=
  {| ui := ui w; timers := timers w; fetches := remove_first j (fetches w);
     uploads := uploads w; fresh := fresh w; trace := trace w |}.

Definition drop_upload (id : nat) (w : t) : t :=
  {| ui := ui w; timers := timers w; fetches := fetches w;
     uploads := remove_first id (uploads w); fresh := fresh w; trace := trace w |}.

(** The handler an event runs. *)
Definition handler (w : t) (ev : Event) : Handler :=
  match ev with
  | EvFileChange picked => onFileChange picked
  | EvSubmit => onSubmit (fresh w)
  | EvToggleDetails => toggleDetails
  | EvCancel => cancelUpload
  | EvUploadProgress _ lc loaded total => onprogress lc loaded total
  | EvUploadLoad _ status responseText => onload status responseText
  | EvUploadError _ => onerror
  | EvTimer j _ => poll j
  | EvFetchDone j out => poll_resume j out
  end.

(** The progress events a browser fires: [loaded] and [total] are
    [unsigned long long], and [lengthComputable] is set only for a [total]
    that is not 0 (XMLHttpRequest standard, fire a progress event). *)
Definition progress_event (lengthComputable : bool) (loaded total : Z) : bool :=
  (0 <=? loaded) && (loaded <? 2 ^ 64) && (0 <=? total) && (total <? 2 ^ 64)
  && (negb lengthComputable || (0 <? total)).

(** A timer fires only if it was set, a request ends or reports progress
    only if it is in flight.  The user's events are accepted in every
    state: the template disables the submit button while loading or without
    a file and shows the cancel button only while loading, and the handlers
    are taken without that gate. *)
Definition enabled (w : t) (ev : Event) : bool :=
  match ev with
  | EvUploadProgress id lc loaded total =>
      bool_decide (id ∈ uploads w) && progress_event lc loaded total
  | EvUploadLoad id _ _ | EvUploadError id =>
      bool_decide (id ∈ uploads w)
  | EvTimer j ms => bool_decide ((j, ms) ∈ timers w)
  | EvFetchDone j _ => bool_decide (j ∈ fetches w)
  | _ => true
  end.

(** What the event uses up: the timer that fired, the request that ended. *)
Definition consume (w : t) (ev : Event) : t :=
  match ev with
  | EvUploadLoad id _ _ | EvUploadError id => drop_upload id w
  | EvTimer j ms => drop_timer j ms w
  | EvFetchDone j _ => drop_fetch j w
  | _ => w
  end.

(** One event; [None] when it cannot occur. *)
Definition step (w : t) (ev : Event) : option t :=
  if enabled w ev then Some (deliver (handler w ev) (consume w ev)) else None.

(** A sequence of events, oldest first. *)
Fixpoint run (w : t) (evs : list Event) : option t :=
  match evs with
  | [] => Some w
  | ev :: evs' =>
      match step w ev with
      | Some w' => run w' evs'
      | None => None
      end
  end.

(** The progress shown after each event of a run. *)
Fixpoint shown_progress (w : t) (evs : list Event) : list Z :=
  match evs with
  | [] => []
  | ev :: evs' =>
      match step w ev with
      | Some w' => progress (ui w') :: shown_progress w' evs'
      | None => []
      end
  end.

End World.

(** ** The map component ([Map.vue]) *)

Module MapView.

(** A layer descriptor, [{name, color}]. *)
Record Layer : Type := { name : string; color : string }.

(** The body of [GET /layers/{job_id}]: an array of names or an array of
    descriptors.  The callback of [data.map] is typed [(l: string) => ...],
    so an array that starts with a string holds strings only. *)
Inductive LayersData : Type :=
| Names (l : list string)
| Descriptors (l : list Layer).

(** How the layers request ends: [fetch] or [res.json()] rejects, the
    response is not ok, or the body is read. *)
Inductive LayersOutcome : Type :=
| LayersRejected
| LayersNotOk
| LayersOk (data : LayersData).

Inductive Mode : Type := vector | raster.

(** The layer filters the component installs. *)
Inductive Filter : Type :=
| LayerIn (names : gset string)          (* ['in', ['get','Layer'], ['literal', [...]]] *)
| TextAndLayerIn (names : gset string).  (* ['all', ['has','Text'], layerFilter] *)

Inductive Effect : Type :=
| FetchLayers (job_id : string)                          (* fetch(`/api/layers/${job_id}`) *)
| RemoveLayer (id : string)
| RemoveSource (id : string)
| AddSource (id : string) (kind : Mode) (url : string)
| AddLayer (id : string) (sourceLayer : option string)
| SetFilter (id : string) (f : Filter)
| FitBounds (bbox : list Js.number)                      (* map.fitBounds(bbox, { padding: 50 }) *)
| MapRemove
| ConsoleLog
| ConsoleWarn
| ConsoleError.

(** The MapLibre map, as far as the component asks it: the ids of its style
    layers and of its sources. *)
Record Maplibre : Type := {
  style_layers : gset string;
  style_sources : gset string
}.

(** The prop [result], the refs, and [window.location.origin]. *)
Record State : Type := {
  result : option ConvertResult.t;
  map : option Maplibre;
  layers : list Layer;
  selectedLayers : gset string;
  mapMode : Mode;
  origin : string
}.

Definition init (o : string) : State :=
  {| result := None; map := None; layers := []; selectedLayers := ∅;
     mapMode := vector; origin := o |}.

Definition set_result (r : option ConvertResult.t) (s : State) : State :=
  {| result := r; map := map s; layers := layers s;
     selectedLayers := selectedLayers s; mapMode := mapMode s; origin := origin s |}.
Definition set_map (m : option Maplibre) (s : State) : State :=
  {| result := result s; map := m; layers := layers s;
     selectedLayers := selectedLayers s; mapMode := mapMode s; origin := origin s |}.
Definition set_layers (l : list Layer) (s : State) : State :=
  {| result := result s; map := map s; layers := l;
     selectedLayers := selectedLayers s; mapMode := mapMode s; origin := origin s |}.
Definition set_selectedLayers (sel : gset string) (s : State) : State :=
  {| result := result s; map := map s; layers := layers s;
     selectedLayers := sel; mapMode := mapMode s; origin := origin s |}.
Definition set_mapMode (m : Mode) (s : State) : State :=
  {| result := result s; map := map s; layers := layers s;
     selectedLayers := selectedLayers s; mapMode := m; origin := origin s |}.

Definition Handler : Type := Act State Effect unit.

Definition skip : Handler := mret tt.
Definition when (c : bool) (h : Handler) : Handler := if c then h else skip.

(** *** Calls on the map object *)

Definition on_map (f : Maplibre → Maplibre) (s : State) : State :=
  set_map (f <$> map s) s.

Definition getLayer (id : string) : Act State Effect bool :=
  m ← gets map;
  mret (match m with
        | Some h => bool_decide (id ∈ style_layers h)
        | None => false
        end).

Definition getSource (id : string) : Act State Effect bool :=
  m ← gets map;
  mret (match m with
        | Some h => bool_decide (id ∈ style_sources h)
        | None => false
        end).

Definition removeLayer (id : string) : Handler :=
  tell (RemoveLayer id);;
  modify (on_map (λ h, {| style_layers := style_layers h ∖ {[id]};
                          style_sources := style_sources h |})).

Definition removeSource (id : string) : Handler :=
  tell (RemoveSource id);;
  modify (on_map (λ h, {| style_layers := style_layers h;
                          style_sources := style_sources h ∖ {[id]} |})).

Definition addSource (id : string) (kind : Mode) (url : string) : Handler :=
  tell (AddSource id kind url);;
  modify (on_map (λ h, {| style_layers := style_layers h;
                          style_sources := style_sources h ∪ {[id]} |})).

Definition addLayer (id : string) (sourceLayer : option string) : Handler :=
  tell (AddLayer id sourceLayer);;
  modify (on_map (λ h, {| style_layers := style_layers h ∪ {[id]};
                          style_sources := style_sources h |})).

(** *** The bounds test shared by [resetView] and the watcher *)

(** [isValid]: [Number.isFinite(n) && Math.abs(n) < 1e20]. *)
Definition isValid (n : option Js.number) : bool :=
  Js.isFinite n && Js.abs_lt n (inject_Z (10 ^ 20)).

(** [isValidLat]: [n >= -90 && n <= 90]. *)
Definition isValidLat (n : option Js.number) : bool :=
  Js.ge_const n (inject_Z (-90)) && Js.le_const n (inject_Z 90).

(** [const [minX, minY, maxX, maxY] = bbox] and the condition on the four. *)
Definition valid_bounds (bbox : list Js.number) : bool :=
  let minX := bbox !! 0%nat in
  let minY := bbox !! 1%nat in
  let maxX := bbox !! 2%nat in
  let maxY := bbox !! 3%nat in
  isValid minX && isValid minY && isValid maxX && isValid maxY &&
  isValidLat minY && isValidLat maxY.

(** *** Handlers *)

(** [updateMapFilters]. *)
Definition updateMapFilters : Handler :=
  m ← gets map;
  match m with
  | None => skip
  | Some _ =>
      sel ← gets selectedLayers;
      has_fill ← getLayer "dwg-layer-fill";
      when has_fill (tell (SetFilter "dwg-layer-fill" (LayerIn sel)));;
      has_line ← getLayer "dwg-layer-line";
      when has_line (tell (SetFilter "dwg-layer-line" (LayerIn sel)));;
      has_text ← getLayer "dwg-layer-text";
      when has_text (tell (SetFilter "dwg-layer-text" (TextAndLayerIn sel)))
  end.

(** The url of a tile source: [if (url.startsWith('/')) url = origin + url]. *)
Definition absolute (o url : string) : string :=
  if Js.startsWithSlash url then o +:+ url else url.

(** [if (map.value.getLayer(id)) map.value.removeLayer(id)]. *)
Definition dropLayer (id : string) : Handler :=
  has ← getLayer id;
  when has (removeLayer id).

(** [renderMapLayers]. *)
Definition renderMapLayers : Handler :=
  m ← gets map;
  r ← gets result;
  match m, r with
  | Some _, Some res =>
      dropLayer "dwg-layer-line";;
      dropLayer "dwg-layer-fill";;
      dropLayer "dwg-layer-text";;
      dropLayer "dwg-layer-raster";;
      has_source ← getSource "dwg-source";
      when has_source (removeSource "dwg-source");;
      mode ← gets mapMode;
      o ← gets origin;
      match mode with
      | raster =>
          if Js.truthy (ConvertResult.raster_url res) then
            addSource "dwg-source" raster
              (absolute o (Js.or_str (ConvertResult.raster_url res) ""));;
            addLayer "dwg-layer-raster" None
          else tell ConsoleWarn
      | vector =>
          if Js.truthy (ConvertResult.mvt_url res) then
            tell ConsoleLog;;
            addSource "dwg-source" vector
              (absolute o (Js.or_str (ConvertResult.mvt_url res) ""));;
            let sourceLayer := Js.or_str (ConvertResult.layer_name res) "entities" in
            addLayer "dwg-layer-fill" (Some sourceLayer);;
            addLayer "dwg-layer-line" (Some sourceLayer);;
            addLayer "dwg-layer-text" (Some sourceLayer);;
            updateMapFilters
          else skip
      end
  | _, _ => skip
  end.

(** [toggleMode]. *)
Definition toggleMode : Handler :=
  mode ← gets mapMode;
  modify (set_mapMode match mode with vector => raster | raster => vector end);;
  renderMapLayers.

(** [resetView]. *)
Definition resetView : Handler :=
  m ← gets map;
  r ← gets result;
  match m, r ≫= ConvertResult.bbox with
  | Some _, Some bbox =>
      if valid_bounds bbox then tell (FitBounds bbox) else tell ConsoleWarn
  | _, _ => skip
  end.

(** [toggleLayer]. *)
Definition toggleLayer (layerName : string) : Handler :=
  sel ← gets selectedLayers;
  modify (set_selectedLayers
            (if decide (layerName ∈ sel) then sel ∖ {[layerName]}
             else sel ∪ {[layerName]}));;
  updateMapFilters.

(** [toggleAllLayers]; [checked] is the state of the box. *)
Definition toggleAllLayers (checked : bool) : Handler :=
  ls ← gets layers;
  modify (set_selectedLayers (if checked then list_to_set (name <$> ls) else ∅));;
  updateMapFilters.

(** [onMounted]; [container] tells whether the element is there.  The new
    map has the background layer of its style and no source. *)
Definition onMounted (container : bool) : Handler :=
  when container
    (modify (set_map (Some {| style_layers := {["background"]};
                              style_sources := ∅ |}))).

(** [onUnmounted]. *)
Definition onUnmounted : Handler :=
  m ← gets map;
  match m with
  | Some _ => tell MapRemove;; modify (set_map None)
  | None => skip
  end.

(** The layer list kept for a body: names get the default colour;
    descriptors, and the empty array, are kept as they are. *)
Definition normalize (data : LayersData) : list Layer :=
  match data with
  | Names (n :: ns) =>
      (λ l, {| name := l; color := "#9ca3af" |}) <$> (n :: ns)
  | Names [] => []
  | Descriptors ds => ds
  end.

(** The watcher on [props.result], step 2 and the bounds: from
    [renderMapLayers()] to its end.  Without a map, [map.value.fitBounds]
    throws inside the [try]. *)
Definition watch_finish (newVal : ConvertResult.t) : Handler :=
  renderMapLayers;;
  tell ConsoleLog;;
  match ConvertResult.bbox newVal with
  | Some bbox =>
      if valid_bounds bbox then
        tell ConsoleLog;;
        m ← gets map;
        match m with
        | Some _ => tell (FitBounds bbox)
        | None => tell ConsoleError
        end
      else tell ConsoleWarn
  | None => skip
  end.

(** The watcher, up to [await fetch(...)]; it runs on the new value of the
    prop. *)
Definition watch_result (newVal : option ConvertResult.t) : Handler :=
  m ← gets map;
  match m, newVal with
  | Some _, Some nv =>
      if decide (ConvertResult.job_id nv = "") then watch_finish nv
      else tell (FetchLayers (ConvertResult.job_id nv))
  | _, _ => skip
  end.

(** The watcher, from the end of the layers request on. *)
Definition watch_resume (newVal : ConvertResult.t) (out : LayersOutcome) : Handler :=
  match out with
  | LayersOk data =>
      modify (set_layers (normalize data));;
      ls ← gets layers;
      modify (set_selectedLayers (list_to_set (name <$> ls)))
  | LayersNotOk => skip
  | LayersRejected => tell ConsoleError
  end;;
  watch_finish newVal.

(** The parent assigns the prop; the watcher runs on the new value. *)
Definition onResult (newVal : option ConvertResult.t) : Handler :=
  modify (set_result newVal);;
  watch_result newVal.

End MapView.

(** ** The template of the map component *)

Module MapTemplate.
Import MapView.

(** What the component can be asked to do: its hooks, the watcher with the
    end of its layers request, and the handlers bound in the template. *)
Inductive Event : Type :=
| EvMounted (container : bool)
| EvUnmounted
| EvResult (newVal : option ConvertResult.t)
| EvLayersDone (newVal : ConvertResult.t) (out : LayersOutcome)
| EvToggleLayer (layerName : string)
| EvToggleAll (checked : bool)
| EvToggleMode
| EvResetView.

Definition handler (ev : Event) : Handler :=
  match ev with
  | EvMounted container => onMounted container
  | EvUnmounted => onUnmounted
  | EvResult newVal => onResult newVal
  | EvLayersDone newVal out => watch_resume newVal out
  | EvToggleLayer layerName => toggleLayer layerName
  | EvToggleAll checked => toggleAllLayers checked
  | EvToggleMode => toggleMode
  | EvResetView => resetView
  end.

(** The sidebar: [v-if="layers.length > 0 && mapMode === 'vector'"]. *)
Definition sidebar_shown (s : State) : bool :=
  bool_decide (0 < length (layers s))%nat &&
  match mapMode s with vector => true | raster => false end.

(** The expression bound to the box of all layers,
    [:checked="selectedLayers.size === layers.length"].  The binding is one
    way: this is the value handed to the element at a render, which the
    element takes over when the value differs from that of the render
    before; it is not the state of the box on the screen. *)
Definition select_all_bound (s : State) : bool :=
  bool_decide (size (selectedLayers s) = length (layers s)).

(** The expression bound to the box of one layer,
    [:checked="selectedLayers.has(layer.name)"], one way as well. *)
Definition layer_bound (s : State) (layer : Layer) : bool :=
  bool_decide (name layer ∈ selectedLayers s).

(** The two buttons on the map: [v-if="result"]. *)
Definition buttons_shown (s : State) : bool :=
  match result s with Some _ => true | None => false end.

End MapTemplate.

(** ** [App.vue] *)

Module App.

(** An entry of [GET /jobs]. *)
Record Job : Type := {
  job_id : string;
  filename : string;
  status : string;
  created_at : Z
}.

(** How the jobs request ends. *)
Inductive JobsOutcome : Type :=
| JobsRejected
| JobsNotOk
| JobsOk (data : list Job).

(** How the request for one job ends; [e] is the text of what was thrown. *)
Inductive JobOutcome : Type :=
| JobRejected (e : string)
| JobNotOk
| JobOk (data : ConvertResult.t).

Inductive Effect : Type :=
| FetchJobs                       (* fetch('/api/jobs') *)
| FetchJob (jobId : string)       (* fetch(`/api/convert/${jobId}`) *)
| ConsoleError.

(** The refs.  [error] holds what the uploader emitted, or a text. *)
Record State : Type := {
  result : option ConvertResult.t;
  error : option Uploader.ErrPayload;
  jobs : list Job;
  selectedJobId : string
}.

Definition init : State :=
  {| result := None; error := None; jobs := []; selectedJobId := "" |}.

Definition set_result (r : option ConvertResult.t) (s : State) : State :=
  {| result := r; error := error s; jobs := jobs s; selectedJobId := selectedJobId s |}.
Definition set_error (e : option Uploader.ErrPayload) (s : State) : State :=
  {| result := result s; error := e; jobs := jobs s; selectedJobId := selectedJobId s |}.
Definition set_jobs (l : list Job) (s : State) : State :=
  {| result := result s; error := error s; jobs := l; selectedJobId := selectedJobId s |}.
Definition set_selectedJobId (j : string) (s : State) : State :=
  {| result := result s; error := error s; jobs := jobs s; selectedJobId := j |}.

Definition Handler : Type := Act State Effect unit.

Definition skip : Handler := mret tt.

(** [fetchJobs], up to [await fetch(...)]. *)
Definition fetchJobs : Handler := tell FetchJobs.

(** [fetchJobs], from the end of the request on. *)
Definition fetchJobs_resume (out : JobsOutcome) : Handler :=
  match out with
  | JobsOk data => modify (set_jobs data)
  | JobsNotOk => skip
  | JobsRejected => tell ConsoleError
  end.

(** [loadJob], up to [await fetch(...)]. *)
Definition loadJob (jobId : string) : Handler :=
  if decide (jobId = "") then skip else tell (FetchJob jobId).

(** [loadJob], from the end of the request on. *)
Definition loadJob_resume (jobId : string) (out : JobOutcome) : Handler :=
  match out with
  | JobOk data =>
      modify (set_result (Some data));;
      modify (set_error None);;
      modify (set_selectedJobId jobId)
  | JobNotOk =>
      modify (set_error (Some (Uploader.ErrText "Failed to load job")))
  | JobRejected e =>
      modify (set_error (Some (Uploader.ErrText ("Error loading job: " +:+ e))))
  end.

(** [onConvert]. *)
Definition onConvert (res : ConvertResult.t) : Handler :=
  modify (set_error None);;
  modify (set_result (Some res));;
  fetchJobs;;
  if decide (ConvertResult.job_id res = "") then skip
  else modify (set_selectedJobId (ConvertResult.job_id res)).

(** [onError]. *)
Definition onError (msg : Uploader.ErrPayload) : Handler :=
  modify (set_error (Some msg));;
  modify (set_result None).

(** [onMounted]. *)
Definition onMounted : Handler := fetchJobs.

(** The selector: [v-model="selectedJobId"] takes the chosen value, then
    [@change="loadJob(selectedJobId)"] runs. *)
Definition onSelect (chosen : string) : Handler :=
  modify (set_selectedJobId chosen);;
  loadJob chosen.

(** What the uploader emits reaches [@convert="onConvert"] and
    [@error="onError"]; its other effects are not the parent's. *)
Definition relay (e : Uploader.Effect) : Handler :=
  match e with
  | Uploader.EmitConvert res => onConvert res
  | Uploader.EmitError msg => onError msg
  | _ => skip
  end.

(** The emits of one handler of the uploader, in their order. *)
Fixpoint relay_all (es : list Uploader.Effect) : Handler :=
  match es with
  | [] => skip
  | e :: es' => relay e;; relay_all es'
  end.

(** The banner: [v-if="error"].  The empty text is falsy, an object is not. *)
Definition banner_shown (s : State) : bool :=
  match error s with
  | Some (Uploader.ErrText t) => bool_decide (t ≠ "")
  | Some (Uploader.ErrDetail _) => true
  | None => false
  end.

(** The hint to download the package:
    [v-if="result && !result.mvt_url && result.status === 'done'"]. *)
Definition hint_shown (s : State) : bool :=
  match result s with
  | Some r =>
      negb (Js.truthy (ConvertResult.mvt_url r)) &&
      bool_decide (ConvertResult.status r = "done")
  | None => false
  end.

End App.

(** * The words of the properties *)

(** ** On the uploader and its page *)

Module UploaderSpec.
Import Uploader World.

(** No entry of the log equals the entry after it. *)
Definition adjacent_distinct (l : list string) : Prop :=
  ∀ i x y, l !! i = Some x → l !! Datatypes.S i = Some y → x ≠ y.

(** The refs after a sequence of [addLog] calls, oldest first. *)
Definition addLogs (msgs : list string) (s : State) : State :=
  foldl (λ s' m, exec (addLog m) s') s msgs.

(** The name ends in [.dwg], in any mix of cases. *)
Definition ends_in_dwg (n : string) : Prop :=
  ∃ pre d w g,
    n = pre +:+ String "." (String d (String w (String g ""))) ∧
    (d = "d"%char ∨ d = "D"%char) ∧
    (w = "w"%char ∨ w = "W"%char) ∧
    (g = "g"%char ∨ g = "G"%char).

(** The terminal statuses in the words of the specification: [done],
    [error] or [cancelled]. *)
Definition terminal_status (st : string) : bool :=
  bool_decide (st = "done") || bool_decide (st = "error") ||
  bool_decide (st = "cancelled").

(** The statuses on which [poll] returns without a new timer. *)
Definition ends_polling (st : string) : bool :=
  bool_decide (st = "done") || bool_decide (st = "error").

(** The refs once the body of a status response is taken in, before its
    status is looked at. *)
Definition taken_in (res : ConvertResult.t) (s : State) : State :=
  exec (addLog (Js.or_str (ConvertResult.message res) ""))
    (set_progressMsg (Js.or_str (ConvertResult.message res) "")
       (set_progress (Js.or_zero (ConvertResult.progress res)) s)).

(** The refs when an accepted upload hands over to polling. *)
Definition handed_over (job : string) (s : State) : State :=
  set_currentJobId (Some job)
    (set_progressMsg "准备转换..."
       (set_progress 0
          (exec (addLog "上传完成，等待处理...") (set_xhr None s)))).

(** [req.status >= 200 && req.status < 300]. *)
Definition is_2xx (status : Z) : bool := (200 <=? status) && (status <? 300).

(** The timers among the effects of a handler. *)
Definition scheduled (es : list Effect) : list (string * Z) :=
  omap (λ e, match e with SetTimeout j ms => Some (j, ms) | _ => None end) es.

(** The status requests among the effects of a handler. *)
Definition requested (es : list Effect) : list string :=
  omap (λ e, match e with FetchStatus j => Some j | _ => None end) es.


(** The events of the polling of job [j]: one of its timers fires, or one
    of its status requests ends. *)
Definition polls_of (j : string) (ev : Event) : bool :=
  match ev with
  | EvTimer j' _ | EvFetchDone j' _ => bool_decide (j' = j)
  | _ => false
  end.

(** The events of a polling session of job [j]: those of its polling, and
    the cancel button. *)
Definition in_session (j : string) (ev : Event) : bool :=
  match ev with
  | EvCancel => true
  | _ => polls_of j ev
  end.

(** The events that end a session: the cancel button, and a status
    response that says [done] or [error]. *)
Definition ends_session (ev : Event) : bool :=
  match ev with
  | EvCancel => true
  | EvFetchDone _ (Ok res) => ends_polling (ConvertResult.status res)
  | _ => false
  end.

(** One poll of job [j] is under way and no other: its status request is
    in flight, or its timer is set. *)
Definition one_poll (j : string) (w : World.t) : Prop :=
  (timers w = [] ∧ fetches w = [j]) ∨
  (∃ ms, timers w = [(j, ms)] ∧ fetches w = []).

(** The cadence in the words of the specification, event by event: the
    timer that fires sends the status request, a status response sets the
    next poll 1000 ms later, a response that is not ok or a request that
    fails sets it 2000 ms later. *)
Definition cadence (j : string) (ev : Event) : list Effect :=
  match ev with
  | EvTimer _ _ => [FetchStatus j]
  | EvFetchDone _ (Ok _) => [SetTimeout j 1000]
  | EvFetchDone _ NotOk => [SetTimeout j 2000]
  | EvFetchDone _ Rejected => [ConsoleError; SetTimeout j 2000]
  | _ => []
  end.

(** The progress that a status response for job [j] reports, as the
    component reads it. *)
Definition reported (j : string) (ev : Event) : option Z :=
  match ev with
  | EvFetchDone j' (Ok res) =>
      if decide (j' = j) then Some (Js.or_zero (ConvertResult.progress res))
      else None
  | _ => None
  end.

(** The latest progress reported for job [j] after each event, starting
    from [p]. *)
Fixpoint follow (j : string) (p : Z) (evs : list Event) : list Z :=
  match evs with
  | [] => []
  | ev :: evs' =>
      let p' := default p (reported j ev) in
      p' :: follow j p' evs'
  end.

End UploaderSpec.

(** ** On the map component *)

Module MapSpec.
Import MapView.

(** A handler that only talks to the map object: the other refs stay, a
    map that is there stays there, and [fitBounds] is not called. *)
Definition map_only {A} (h : Act State Effect A) : Prop :=
  ∀ s,
    result (exec h s) = result s ∧
    layers (exec h s) = layers s ∧
    selectedLayers (exec h s) = selectedLayers s ∧
    mapMode (exec h s) = mapMode s ∧
    (is_Some (map s) → is_Some (map (exec h s))) ∧
    (∀ bbox, FitBounds bbox ∉ effects h s).

(** A coordinate that is a finite number strictly between [-1e20] and
    [1e20]. *)
Definition in_range (n : Js.number) : Prop :=
  ∃ q : Q, n = Js.Fin q ∧ (- inject_Z (10 ^ 20) < q)%Q ∧ (q < inject_Z (10 ^ 20))%Q.

(** A coordinate that is a number from [-90] to [90]. *)
Definition is_latitude (n : Js.number) : Prop :=
  ∃ q : Q, n = Js.Fin q ∧ (inject_Z (-90) <= q)%Q ∧ (q <= inject_Z 90)%Q.

(** The box [[minX, minY, maxX, maxY]] may be shown. *)
Definition usable (minX minY maxX maxY : Js.number) : Prop :=
  in_range minX ∧ in_range minY ∧ in_range maxX ∧ in_range maxY ∧
  is_latitude minY ∧ is_latitude maxY.

(** The descriptor a bare name is turned into. *)
Definition with_default_color (n : string) : Layer :=
  {| name := n; color := "#9ca3af" |}.

End MapSpec.

(** * Scenes *)

(** ** Of the uploader *)

Module UploaderScenes.
Import Uploader World.

(** A drawing of 2 KB. *)
Definition plan : File := {| name := "plan.dwg"; size := 2048 |}.

(** The first status of a job. *)
Definition queued : ConvertResult.t :=
  ConvertResult.mk "job-1" "queued" (Some 0) (Some "queued")
    None None None None None None None.

(** A page that uploaded [plan.dwg], had it accepted as [job-1], got one
    status response and has sent the second status request. *)
Definition page_polling : World.t :=
  {| ui := {| loading := true; progress := 0; progressMsg := "queued";
              file := Some plan; showDetails := false;
              logs := ["开始上传..."; "上传完成，等待处理..."; "queued"];
              currentJobId := Some "job-1"; xhr := None |};
     timers := []; fetches := ["job-1"]; uploads := []; fresh := 1%nat;
     trace := [EmitError (ErrText ""); XhrSend 0 plan; FetchStatus "job-1";
               SetTimeout "job-1" 1000; FetchStatus "job-1"] |}.

(** A fresh page on which [f] was picked. *)
Definition page_with (f : option File) : World.t :=
  {| World.ui := set_file f Uploader.init; World.timers := []; World.fetches := [];
     World.uploads := []; World.fresh := 0%nat; World.trace := [] |}.

(** A component that is polling [job-1]. *)
Definition polling_job1 : State :=
  set_currentJobId (Some "job-1") (set_loading true Uploader.init).

(** A status response for [job-1]. *)
Definition reply (st : string) (p : Z) (m : string) : ConvertResult.t :=
  ConvertResult.mk "job-1" st (Some p) (Some m) None None None None None None None.

(** A server reply that accepts an upload as job [j]. *)
Definition accepted (j : string) : ResponseJson :=
  {| body := ConvertResult.mk j "queued" (Some 0) (Some "queued")
               None None None None None None None;
     detail := None |}.

(** A page on which [job-1] was cancelled while its first status request
    was in flight; the response came late and set a timer; the file was
    uploaded again and accepted as [job-2]. *)
Definition page_with_stale_timer : World.t :=
  {| ui := {| loading := true; progress := 0; progressMsg := "准备转换...";
              file := Some plan; showDetails := false;
              logs := ["开始上传..."; "上传完成，等待处理..."];
              currentJobId := Some "job-2"; xhr := None |};
     timers := [("job-1", 1000)]; fetches := ["job-2"]; uploads := [];
     fresh := 2%nat;
     trace := [EmitError (ErrText ""); XhrSend 0 plan; FetchStatus "job-1";
               EmitError (ErrText "已取消上传"); SetTimeout "job-1" 1000;
               EmitError (ErrText ""); XhrSend 1 plan; FetchStatus "job-2"] |}.


(** A component waiting for the response to its upload. *)
Definition uploading : State :=
  set_xhr (Some 0%nat)
    (set_logs ["开始上传..."]
       (set_progressMsg "正在上传..." (set_loading true Uploader.init))).

(** The body with which the server turns an upload down. *)
Definition refused : ResponseJson :=
  {| body := ConvertResult.mk "" "error" None (Some "仅支持 .dwg 文件")
               None None None None None None None;
     detail := None |}.

(** An upload of [plan.dwg] that completes and is accepted as [job-1]. *)
Definition upload_then_accept : list Event :=
  [EvFileChange (Some {| name := "plan.dwg"; size := 2048 |});
   EvSubmit;
   EvUploadProgress 0 true 2048 2048;
   EvUploadLoad 0 201
     (Some {| body := ConvertResult.mk "job-1" "queued" (Some 0) (Some "queued")
                        None None None None None None None;
              detail := None |})].

(** Two status responses with rising progress, and a failed one between. *)
Definition status_replies : list Event :=
  [EvFetchDone "job-1"
     (Ok (ConvertResult.mk "job-1" "converting" (Some 10) (Some "converting")
            None None None None None None None));
   EvTimer "job-1" 1000;
   EvFetchDone "job-1" NotOk;
   EvTimer "job-1" 2000;
   EvFetchDone "job-1"
     (Ok (ConvertResult.mk "job-1" "packaging" (Some 55) (Some "packaging")
            None None None None None None None))].

(** Four events of the polling of [job-1] that do not end it. *)
Definition session_rounds : list Event :=
  [EvFetchDone "job-1" (Ok (reply "converting" 20 "converting"));
   EvTimer "job-1" 1000;
   EvFetchDone "job-1" NotOk;
   EvTimer "job-1" 2000].

(** [plan.dwg] is uploaded and accepted as [job-1]; the user cancels while
    the first status request of [job-1] is in flight, uploads the file again,
    which is accepted as [job-2], and the first status of [job-2] arrives. *)
Definition two_jobs : list Event :=
  [EvFileChange (Some plan); EvSubmit;
   EvUploadLoad 0 201 (Some (accepted "job-1"));
   EvCancel;
   EvSubmit;
   EvUploadLoad 1 201 (Some (accepted "job-2"));
   EvFetchDone "job-2"
     (Ok (ConvertResult.mk "job-2" "converting" (Some 50) (Some "converting")
            None None None None None None None))].

End UploaderScenes.

(** ** Of the map component *)

Module MapScenes.
Import MapView.

(** A mounted component. *)
Definition mounted : State :=
  exec (onMounted true) (init "http://localhost:5173").

(** The result of a finished job with the box [bbox]. *)
Definition done_with (bbox : list Js.number) : ConvertResult.t :=
  ConvertResult.mk "job-1" "done" (Some 100) (Some "done") None None
    (Some "entities") (Some "/geoserver/gwc/{z}/{x}/{y}.pbf") None None (Some bbox).

(** The box [-10, -5, 10, 5]. *)
Definition box_ok : list Js.number :=
  [Js.Fin (inject_Z (-10)); Js.Fin (inject_Z (-5));
   Js.Fin (inject_Z 10); Js.Fin (inject_Z 5)].

(** The box [1e21, 0, 1, 1]. *)
Definition box_far : list Js.number :=
  [Js.Fin (inject_Z (10 ^ 21)); Js.Fin 0; Js.Fin 1; Js.Fin 1].

(** A mounted component with two layers selected. *)
Definition two_selected : State :=
  set_selectedLayers {["0"; "walls"]} mounted.

End MapScenes.

(** ** More on the page of the uploader *)

Module PageSpec.
Import Uploader World UploaderSpec.

(** The polls under way: timers set and status requests in flight. *)
Definition outstanding (w : World.t) : nat :=
  (length (timers w) + length (fetches w))%nat.

(** The response to an upload is one that [onload] hands over to polling:
    2xx, with a body that parses and is no error body. *)
Definition accepts (status : Z) (responseText : option ResponseJson) : bool :=
  match responseText with
  | Some json =>
      is_2xx status && bool_decide (ConvertResult.status (body json) ≠ "error")
  | None => false
  end.

(** The event is the response to an upload that is handed over. *)
Definition hands_over (ev : Event) : bool :=
  match ev with
  | EvUploadLoad _ status responseText => accepts status responseText
  | _ => false
  end.

(** An emitted error that the parent shows: a text that is not empty, or an
    object. *)
Definition visible (p : ErrPayload) : bool :=
  match p with
  | ErrText t => bool_decide (t ≠ "")
  | ErrDetail _ => true
  end.

(** The uploads in flight are distinct requests made so far, and the
    request that [xhr] holds is among them. *)
Definition tidy_uploads (w : World.t) : Prop :=
  NoDup (uploads w) ∧
  (∀ id, id ∈ uploads w → (id < fresh w)%nat) ∧
  (∀ id, xhr (ui w) = Some id → id ∈ uploads w).

(** The uploads in flight after the effects [es], from [u]. *)
Definition uploads_after (u : list nat) (es : list Effect) : list nat :=
  foldl (λ u' e, match e with
                 | XhrSend id _ => u' ++ [id]
                 | XhrAbort id => remove_first id u'
                 | _ => u'
                 end) u es.

(** The number of the next request after the effects [es], from [n]. *)
Definition fresh_after (n : nat) (es : list Effect) : nat :=
  foldl (λ n' e, match e with XhrSend id _ => S id | _ => n' end) n es.

(** The refs when [onSubmit] has sent the upload as request [id]. *)
Definition submitted (id : nat) (s : State) : State :=
  set_xhr (Some id)
    (set_showDetails false
       (set_logs ["开始上传..."]
          (set_progressMsg "正在上传..."
             (set_progress 0 (set_loading true s))))).

End PageSpec.

Module PageScenes.
Import Uploader World UploaderScenes.

(** The page once [plan.dwg] is picked and submitted. *)
Definition page_uploading : World.t :=
  {| ui := {| loading := true; progress := 0; progressMsg := "正在上传...";
              file := Some plan; showDetails := false;
              logs := ["开始上传..."];
              currentJobId := None; xhr := Some 0%nat |};
     timers := []; fetches := []; uploads := [0%nat]; fresh := 1%nat;
     trace := [EmitError (ErrText ""); XhrSend 0 plan] |}.

(** The page once the upload is accepted as [job-1] and the first status
    response has set the timer of the next poll. *)
Definition page_timer_set : World.t :=
  {| ui := {| loading := true; progress := 0; progressMsg := "queued";
              file := Some plan; showDetails := false;
              logs := ["开始上传..."; "上传完成，等待处理..."; "queued"];
              currentJobId := Some "job-1"; xhr := None |};
     timers := [("job-1", 1000)]; fetches := []; uploads := []; fresh := 1%nat;
     trace := [EmitError (ErrText ""); XhrSend 0 plan; FetchStatus "job-1";
               SetTimeout "job-1" 1000] |}.

(** The events that lead to the two pages. *)
Definition to_uploading : list Event :=
  [EvFileChange (Some plan); EvSubmit].

Definition to_timer_set : list Event :=
  [EvFileChange (Some plan); EvSubmit;
   EvUploadLoad 0 201 (Some (accepted "job-1"));
   EvFetchDone "job-1" (Ok queued)].

End PageScenes.

(** ** More on the map component *)

Module MapMoreSpec.
Import MapView.

(** The effect is a call on the MapLibre map. *)
Definition map_call (e : Effect) : bool :=
  match e with
  | RemoveLayer _ | RemoveSource _ | AddSource _ _ _ | AddLayer _ _
  | SetFilter _ _ | FitBounds _ | MapRemove => true
  | FetchLayers _ | ConsoleLog | ConsoleWarn | ConsoleError => false
  end.

(** The ids of the layers that [renderMapLayers] draws. *)
Definition dwg_layers : gset string :=
  {[ "dwg-layer-line"; "dwg-layer-fill"; "dwg-layer-text"; "dwg-layer-raster" ]}.

(** The map after [removeLayer], [removeSource], [addLayer], [addSource]. *)
Definition without_layer (id : string) (h : Maplibre) : Maplibre :=
  {| style_layers := style_layers h ∖ {[id]}; style_sources := style_sources h |}.
Definition without_source (id : string) (h : Maplibre) : Maplibre :=
  {| style_layers := style_layers h; style_sources := style_sources h ∖ {[id]} |}.
Definition with_layer (id : string) (h : Maplibre) : Maplibre :=
  {| style_layers := style_layers h ∪ {[id]}; style_sources := style_sources h |}.
Definition with_source (id : string) (h : Maplibre) : Maplibre :=
  {| style_layers := style_layers h; style_sources := style_sources h ∪ {[id]} |}.

(** The map cleared of what [renderMapLayers] drew before. *)
Definition cleared (h : Maplibre) : Maplibre :=
  without_source "dwg-source"
    (without_layer "dwg-layer-raster"
       (without_layer "dwg-layer-text"
          (without_layer "dwg-layer-fill"
             (without_layer "dwg-layer-line" h)))).

(** The map after [renderMapLayers] for the result [res] in the mode [m]. *)
Definition rendered (m : Mode) (res : ConvertResult.t) (h : Maplibre) : Maplibre :=
  match m with
  | raster =>
      if Js.truthy (ConvertResult.raster_url res)
      then with_layer "dwg-layer-raster" (with_source "dwg-source" (cleared h))
      else cleared h
  | vector =>
      if Js.truthy (ConvertResult.mvt_url res)
      then with_layer "dwg-layer-text"
             (with_layer "dwg-layer-line"
                (with_layer "dwg-layer-fill"
                   (with_source "dwg-source" (cleared h))))
      else cleared h
  end.

(** The handler changes the map by [f] and leaves the result and the mode. *)
Definition style_at (s : State) (hd : Handler) (f : Maplibre → Maplibre) : Prop :=
  map (exec hd s) = f <$> map s ∧
  result (exec hd s) = result s ∧
  mapMode (exec hd s) = mapMode s.

(** The mode other than [m]. *)
Definition other_mode (m : Mode) : Mode :=
  match m with vector => raster | raster => vector end.

End MapMoreSpec.

Module MapMoreScenes.
Import MapView MapScenes.

(** A mounted component showing a finished job in vector mode. *)
Definition showing : State :=
  exec renderMapLayers (set_result (Some (done_with box_ok)) mounted).

(** A component that was never mounted. *)
Definition unmounted : State :=
  set_result (Some (done_with box_ok)) (init "http://localhost:5173").

End MapMoreScenes.

(** * Properties *)

(** ** Running handlers *)

Section ActLemmas.
Context {S E : Type}.
Implicit Types (s : S).

Lemma exec_bind {A B} (m : Act S E A) (k : A → Act S E B) s :
  exec (m ≫= k) s = exec (k (fst (fst (m s)))) (exec m s).
Proof.
  unfold exec, mbind, act_bind, bind.
  destruct (m s) as [[a s1] e1]; simpl.
  destruct (k a s1) as [[b s2] e2]; reflexivity.
Qed.

Lemma effects_bind {A B} (m : Act S E A) (k : A → Act S E B) s :
  effects (m ≫= k) s = effects m s ++ effects (k (fst (fst (m s)))) (exec m s).
Proof.
  unfold effects, exec, mbind, act_bind, bind.
  destruct (m s) as [[a s1] e1]; simpl.
  destruct (k a s1) as [[b s2] e2]; reflexivity.
Qed.

Lemma act_eta (h : Act S E unit) s : h s = (tt, exec h s, effects h s).
Proof.
  unfold exec, effects. destruct (h s) as [[[] s1] e1]; reflexivity.
Qed.
End ActLemmas.

(** Unfold a handler applied to refs down to the pair it returns. *)
Ltac run_handler :=
  unfold exec, effects, mbind, mret, act_bind, act_ret, bind, ret, gets,
    modify, tell in *; simpl in *.

(** ** Strings *)

Module JsFacts.
Import Js.

Lemma endsWith_true s suf : endsWith s suf = true ↔ ∃ pre, s = pre +:+ suf.
Proof.
  split.
  - induction s as [|c s IH]; cbn [endsWith].
    + destruct (String.eqb_spec "" suf) as [<-|]; [|done].
      intros _. by exists "".
    + destruct (String.eqb_spec (String c s) suf) as [<-|].
      * intros _. by exists "".
      * intros [pre ->]%IH. by exists (String c pre).
  - intros [pre ->]. induction pre as [|c pre IH].
    + change ("" +:+ suf) with suf.
      destruct suf; cbn [endsWith]; by rewrite String.eqb_refl.
    + change (String c pre +:+ suf) with (String c (pre +:+ suf)).
      cbn [endsWith]. rewrite IH. by destruct (String.eqb _ _).
Qed.

Lemma toLowerCase_app x y :
  toLowerCase (x +:+ y) = toLowerCase x +:+ toLowerCase y.
Proof. induction x as [|c x IH]; simpl; [done|by rewrite IH]. Qed.

Lemma toLowerCase_app_inv s a b :
  toLowerCase s = a +:+ b →
  ∃ x y, s = x +:+ y ∧ toLowerCase x = a ∧ toLowerCase y = b.
Proof.
  revert s. induction a as [|c a IH]; intros s; simpl.
  - intros Hs. by exists "", s.
  - destruct s as [|d s]; simpl; [done|].
    intros [= Hd (x & y & -> & Hx & Hy)%IH].
    exists (String d x), y. simpl. by rewrite Hd, Hx.
Qed.

(** The four characters of the suffix, by cases on the byte. *)
Lemma lower_ascii_dot c : lower_ascii c = "."%char ↔ c = "."%char.
Proof.
  destruct c as [[] [] [] [] [] [] [] []]; vm_compute; split; congruence.
Qed.

Lemma lower_ascii_d c : lower_ascii c = "d"%char ↔ c = "d"%char ∨ c = "D"%char.
Proof.
  destruct c as [[] [] [] [] [] [] [] []]; vm_compute;
    (split; [intros [=]; auto | intros [[=]|[=]]]; done).
Qed.

Lemma lower_ascii_w c : lower_ascii c = "w"%char ↔ c = "w"%char ∨ c = "W"%char.
Proof.
  destruct c as [[] [] [] [] [] [] [] []]; vm_compute;
    (split; [intros [=]; auto | intros [[=]|[=]]]; done).
Qed.

Lemma lower_ascii_g c : lower_ascii c = "g"%char ↔ c = "g"%char ∨ c = "G"%char.
Proof.
  destruct c as [[] [] [] [] [] [] [] []]; vm_compute;
    (split; [intros [=]; auto | intros [[=]|[=]]]; done).
Qed.

End JsFacts.

(** ** The uploader *)

Module UploaderFacts.
Import Uploader UploaderSpec UploaderScenes.

(** *** The message log *)

Lemma addLog_skip s m :
  m = "" ∨ last (logs s) = Some m → addLog m s = (tt, s, []).
Proof.
  intros H. unfold addLog.
  destruct (decide (m = "")); [done|].
  destruct H as [?|H]; [done|].
  run_handler. by destruct (decide (last (logs s) = Some m)).
Qed.

Lemma addLog_push s m :
  m ≠ "" → last (logs s) ≠ Some m →
  addLog m s = (tt, set_logs (logs s ++ [m]) s, []).
Proof.
  intros Hm Hl. unfold addLog.
  destruct (decide (m = "")); [done|].
  run_handler. by destruct (decide (last (logs s) = Some m)).
Qed.

Lemma adjacent_distinct_nil : adjacent_distinct [].
Proof. intros i x y H. by rewrite lookup_nil in H. Qed.

Lemma adjacent_distinct_singleton x : adjacent_distinct [x].
Proof. intros [|i] a b _ H; by rewrite ?lookup_nil in H. Qed.

Lemma adjacent_distinct_snoc l m :
  adjacent_distinct l → last l ≠ Some m → adjacent_distinct (l ++ [m]).
Proof.
  intros Hl Hlast i x y Hx Hy.
  destruct (decide (Datatypes.S i < length l)%nat) as [Hlt|Hge].
  - rewrite lookup_app_l in Hx by lia. rewrite lookup_app_l in Hy by lia.
    by eapply Hl.
  - assert (Datatypes.S i = length l) as Hi.
    { apply lookup_lt_Some in Hy. rewrite length_app in Hy. simpl in Hy. lia. }
    rewrite lookup_app_l in Hx by lia.
    rewrite lookup_app_r in Hy by lia.
    replace (Datatypes.S i - length l)%nat with 0%nat in Hy by lia.
    injection Hy as <-. intros ->. apply Hlast.
    rewrite last_lookup. by replace (pred (length l)) with i by lia.
Qed.

Lemma addLog_adjacent_distinct s m :
  adjacent_distinct (logs s) → adjacent_distinct (logs (exec (addLog m) s)).
Proof.
  intros Hs.
  destruct (decide (m = "")) as [->|Hm].
  { unfold exec. by rewrite addLog_skip by auto. }
  destruct (decide (last (logs s) = Some m)) as [Hl|Hl].
  { unfold exec. by rewrite addLog_skip by auto. }
  unfold exec. rewrite addLog_push by done. simpl.
  by apply adjacent_distinct_snoc.
Qed.

(** C3.  Whatever messages [addLog] is called with, one after the other, a
    log without two equal neighbours stays so; and a call with the message
    that is the last entry changes nothing and has no effect. *)
Theorem addLog_never_repeats (s : State) (msgs : list string) :
  adjacent_distinct (logs s) →
  adjacent_distinct (logs (addLogs msgs s)) ∧
  (∀ s' m, last (logs s') = Some m → addLog m s' = (tt, s', [])).
Proof.
  intros Hs. split.
  - revert s Hs. induction msgs as [|m msgs IH]; intros s Hs; [done|].
    apply IH. by apply addLog_adjacent_distinct.
  - intros s' m Hlast. apply addLog_skip. by right.
Qed.

Lemma addLog_never_repeats_witness :
  adjacent_distinct (logs (addLogs ["a"; "a"; "b"; ""; "b"; "a"] init)) ∧
  (∀ s' m, last (logs s') = Some m → addLog m s' = (tt, s', [])).
Proof.
  apply (addLog_never_repeats init ["a"; "a"; "b"; ""; "b"; "a"]).
  intros i x y H. destruct i; discriminate H.
Defined.

Example addLog_coalesces :
  logs (addLogs ["a"; "a"; "b"; ""; "b"; "a"] init) = ["a"; "b"; "a"].
Proof. reflexivity. Qed.

(** *** Submission *)

Lemma endsWith_dwg n :
  Js.endsWith (Js.toLowerCase n) ".dwg" = true ↔ ends_in_dwg n.
Proof.
  rewrite JsFacts.endsWith_true. split.
  - intros [pre (x & y & -> & _ & Hy)%JsFacts.toLowerCase_app_inv].
    destruct y as [|c0 [|c1 [|c2 [|c3 [|? ?]]]]]; simpl in Hy; try discriminate Hy.
    injection Hy as H0 H1 H2 H3.
    apply JsFacts.lower_ascii_dot in H0 as ->.
    apply JsFacts.lower_ascii_d in H1. apply JsFacts.lower_ascii_w in H2.
    apply JsFacts.lower_ascii_g in H3.
    by exists x, c1, c2, c3.
  - intros (pre & d & w & g & -> & Hd & Hw & Hg).
    exists (Js.toLowerCase pre). rewrite JsFacts.toLowerCase_app. f_equal.
    apply JsFacts.lower_ascii_d in Hd. apply JsFacts.lower_ascii_w in Hw.
    apply JsFacts.lower_ascii_g in Hg.
    simpl. rewrite Hd, Hw, Hg.
    by rewrite (proj2 (JsFacts.lower_ascii_dot "."%char)).
Qed.

Lemma not_a_dwg_true f :
  not_a_dwg f = true ↔
  f = None ∨ ∃ fl, f = Some fl ∧ ¬ ends_in_dwg (name fl).
Proof.
  destruct f as [fl|]; simpl.
  - rewrite negb_true_iff, <- not_true_iff_false, endsWith_dwg. split.
    + intros H. right. by exists fl.
    + by intros [?|(? & [= <-] & ?)].
  - split; auto.
Qed.

(** C4.  With no file selected, or a file whose name does not end in
    [.dwg] (in any mix of cases), [onSubmit] returns at once: the refs are
    as before and its only effect is the error it emits; on the page no
    upload is started, nothing is in flight that was not, and no timer or
    status request is added. *)
Theorem onSubmit_rejects_non_dwg (w : World.t) :
  (file (World.ui w) = None ∨
   ∃ fl, file (World.ui w) = Some fl ∧ ¬ ends_in_dwg (name fl)) →
  onSubmit (World.fresh w) (World.ui w)
    = (tt, World.ui w, [EmitError (ErrText "请选择 .dwg 文件")]) ∧
  World.step w World.EvSubmit
    = Some {| World.ui := World.ui w;
              World.timers := World.timers w;
              World.fetches := World.fetches w;
              World.uploads := World.uploads w;
              World.fresh := World.fresh w;
              World.trace := World.trace w ++ [EmitError (ErrText "请选择 .dwg 文件")] |}.
Proof.
  intros H%not_a_dwg_true.
  assert (onSubmit (World.fresh w) (World.ui w)
          = (tt, World.ui w, [EmitError (ErrText "请选择 .dwg 文件")])) as Hrun.
  { unfold onSubmit. run_handler. by rewrite H. }
  split; [done|].
  unfold World.step, World.deliver, exec, effects. simpl. by rewrite Hrun.
Qed.

Lemma onSubmit_rejects_non_dwg_witness :
  onSubmit 0 (set_file (Some {| name := "plan.dxf"; size := 2048 |}) init)
    = (tt, set_file (Some {| name := "plan.dxf"; size := 2048 |}) init,
       [EmitError (ErrText "请选择 .dwg 文件")]) ∧
  World.step (page_with (Some {| name := "plan.dxf"; size := 2048 |})) World.EvSubmit
    = Some {| World.ui := set_file (Some {| name := "plan.dxf"; size := 2048 |}) init;
              World.timers := []; World.fetches := []; World.uploads := [];
              World.fresh := 0%nat;
              World.trace := [EmitError (ErrText "请选择 .dwg 文件")] |}.
Proof.
  apply (onSubmit_rejects_non_dwg
           (page_with (Some {| name := "plan.dxf"; size := 2048 |}))).
  right. exists {| name := "plan.dxf"; size := 2048 |}. split; [reflexivity|].
  intros H%endsWith_dwg. vm_compute in H. discriminate H.
Defined.

(** The upload percentage is computed on doubles: [29 / 200] is the double
    just under 0.145, its product with 100 the double just under 14.5, and
    [Math.round] gives 14 where the exact quotient would give 15. *)
Example percent_on_doubles :
  percent 29 200 = 14 ∧ percent 2048 2048 = 100 ∧ percent 1 3 = 33 ∧
  percent 1 200 = 1 ∧ percent 0 2048 = 0.
Proof. by vm_compute. Qed.

End UploaderFacts.

(** ** Polling *)

Module PollingFacts.
Import Uploader UploaderSpec.

(** Case analysis on the tests a handler makes. *)
Ltac handler_cases :=
  repeat first
    [ progress run_handler
    | case_decide
    | case_bool_decide
    | match goal with
      | |- context [if ?b then _ else _] => destruct b eqn:?
      | |- context [match ?x with Some _ => _ | None => _ end] => destruct x eqn:?
      end ].

(** [addLog] touches the log only and has no effect. *)
Lemma addLog_frame s m :
  loading (exec (addLog m) s) = loading s ∧
  progress (exec (addLog m) s) = progress s ∧
  progressMsg (exec (addLog m) s) = progressMsg s ∧
  currentJobId (exec (addLog m) s) = currentJobId s ∧
  xhr (exec (addLog m) s) = xhr s ∧
  effects (addLog m) s = [].
Proof. unfold addLog. handler_cases; done. Qed.

Lemma poll_run s j :
  poll j s
  = (tt, s, if loading s && bool_decide (currentJobId s = Some j)
            then [FetchStatus j] else []).
Proof.
  unfold poll. run_handler.
  destruct (loading s); simpl; [|done].
  repeat case_bool_decide; done.
Qed.

Lemma poll_resume_Rejected s j :
  poll_resume j Rejected s
  = (tt, s, ConsoleError :: if loading s then [SetTimeout j 2000] else []).
Proof. unfold poll_resume, when. run_handler. by destruct (loading s). Qed.

Lemma poll_resume_NotOk s j :
  poll_resume j NotOk s
  = (tt, s, if loading s then [SetTimeout j 2000] else []).
Proof. unfold poll_resume, when. run_handler. by destruct (loading s). Qed.

Lemma poll_resume_Ok s j res :
  poll_resume j (Ok res) s
  = if decide (ConvertResult.status res = "done") then
      (tt, set_loading false (taken_in res s), [EmitConvert res])
    else if decide (ConvertResult.status res = "error") then
      (tt, set_loading false (taken_in res s),
       [EmitError (ErrText (Js.or_str (ConvertResult.message res) "转换失败"))])
    else (tt, taken_in res s, [SetTimeout j 1000]).
Proof.
  unfold poll_resume, taken_in, emit_error.
  set (m := Js.or_str (ConvertResult.message res) "").
  set (s1 := set_progressMsg m _).
  destruct (addLog_frame s1 m) as (_ & _ & _ & _ & _ & He).
  unfold mbind, act_bind, bind, modify, tell. fold s1.
  rewrite (act_eta (addLog m) s1), He.
  repeat case_decide; reflexivity.
Qed.

Lemma taken_in_frame res s :
  loading (taken_in res s) = loading s ∧
  currentJobId (taken_in res s) = currentJobId s ∧
  xhr (taken_in res s) = xhr s ∧
  progress (taken_in res s) = Js.or_zero (ConvertResult.progress res) ∧
  progressMsg (taken_in res s) = Js.or_str (ConvertResult.message res) "".
Proof.
  unfold taken_in.
  set (m := Js.or_str (ConvertResult.message res) "").
  set (s1 := set_progressMsg m _).
  destruct (addLog_frame s1 m) as (-> & -> & -> & -> & -> & _). done.
Qed.

Lemma cancelUpload_run s :
  cancelUpload s
  = (tt,
     set_logs [] (set_currentJobId None (set_loading false (set_xhr None s))),
     match xhr s with
     | Some id => [XhrAbort id; EmitError (ErrText "已取消上传")]
     | None => [EmitError (ErrText "已取消上传")]
     end).
Proof.
  unfold cancelUpload, onabort, emit_error, skip. run_handler.
  destruct s as [? ? ? ? ? ? ? [id|]]; reflexivity.
Qed.

End PollingFacts.

(** ** The page *)

Module WorldFacts.
Import Uploader World UploaderSpec UploaderScenes PollingFacts.

Lemma absorb_all w es :
  ui (foldl absorb w es) = ui w ∧
  trace (foldl absorb w es) = trace w ∧
  timers (foldl absorb w es) = timers w ++ scheduled es ∧
  fetches (foldl absorb w es) = fetches w ++ requested es.
Proof.
  revert w. induction es as [|e es IH]; intros w; simpl.
  - by rewrite !app_nil_r.
  - destruct (IH (absorb w e)) as (-> & -> & -> & ->).
    destruct e; simpl; rewrite <- ?app_assoc; done.
Qed.

Lemma deliver_all h w :
  ui (deliver h w) = exec h (ui w) ∧
  trace (deliver h w) = trace w ++ effects h (ui w) ∧
  timers (deliver h w) = timers w ++ scheduled (effects h (ui w)) ∧
  fetches (deliver h w) = fetches w ++ requested (effects h (ui w)).
Proof.
  unfold deliver.
  match goal with
  | |- context [foldl absorb ?w0 ?es] => exact (absorb_all w0 es)
  end.
Qed.

Lemma deliver_ui h w : ui (deliver h w) = exec h (ui w).
Proof. apply deliver_all. Qed.

Lemma deliver_trace h w : trace (deliver h w) = trace w ++ effects h (ui w).
Proof. apply deliver_all. Qed.

Lemma deliver_timers h w :
  timers (deliver h w) = timers w ++ scheduled (effects h (ui w)).
Proof. apply deliver_all. Qed.

Lemma deliver_fetches h w :
  fetches (deliver h w) = fetches w ++ requested (effects h (ui w)).
Proof. apply deliver_all. Qed.

Lemma consume_ui w ev : ui (consume w ev) = ui w.
Proof. by destruct ev. Qed.

Lemma consume_trace w ev : trace (consume w ev) = trace w.
Proof. by destruct ev. Qed.

(** The component and the trace after an event. *)
Lemma step_Some w ev w' :
  step w ev = Some w' →
  ui w' = exec (handler w ev) (ui w) ∧
  trace w' = trace w ++ effects (handler w ev) (ui w).
Proof.
  unfold step. destruct (enabled w ev); [|done]. intros [= <-].
  by rewrite deliver_ui, deliver_trace, consume_ui, consume_trace.
Qed.

(** Every run only adds to the trace. *)
Lemma step_trace w ev w' :
  step w ev = Some w' → ∃ es, trace w' = trace w ++ es.
Proof.
  intros [_ ->]%step_Some. eauto.
Qed.

Lemma run_trace w evs w' :
  run w evs = Some w' → ∃ es, trace w' = trace w ++ es.
Proof.
  revert w. induction evs as [|ev evs IH]; intros w; simpl.
  - intros [= <-]. exists []. by rewrite app_nil_r.
  - destruct (step w ev) as [w1|] eqn:Hs; [|done].
    intros (es2 & ->)%IH. apply step_trace in Hs as [es1 ->].
    exists (es1 ++ es2). by rewrite app_assoc.
Qed.

Example page_polling_reached :
  run World.init
    [EvFileChange (Some plan); EvSubmit;
     EvUploadLoad 0 201 (Some {| body := queued; detail := None |});
     EvFetchDone "job-1" (Ok queued); EvTimer "job-1" 1000]
  = Some page_polling.
Proof. vm_compute. reflexivity. Qed.

Example page_with_stale_timer_reached :
  run World.init
    [EvFileChange (Some plan); EvSubmit;
     EvUploadLoad 0 201 (Some (accepted "job-1"));
     EvCancel;
     EvFetchDone "job-1" (Ok queued);
     EvSubmit;
     EvUploadLoad 1 201 (Some (accepted "job-2"))]
  = Some page_with_stale_timer.
Proof. vm_compute. reflexivity. Qed.

End WorldFacts.

(** ** The upload response *)

Module UploadFacts.
Import Uploader UploaderSpec PollingFacts.

Lemma onload_run s status responseText :
  onload status responseText s
  = if is_2xx status then
      match responseText with
      | Some json =>
          let res := body json in
          if decide (ConvertResult.status res = "error") then
            (tt, set_loading false (set_xhr None s),
             [EmitError (ErrText (Js.or_str (ConvertResult.message res) "转换失败"))])
          else
            (tt, handed_over (ConvertResult.job_id res) s,
             if loading s then [FetchStatus (ConvertResult.job_id res)] else [])
      | None =>
          (tt, set_loading false (set_xhr None s),
           [EmitError (ErrText "响应解析失败")])
      end
    else
      (tt, set_loading false (set_xhr None s),
       [EmitError match responseText with
                  | Some err => failure_text err ("请求失败 " +:+ pretty status)
                  | None => ErrText ("请求失败 " +:+ pretty status)
                  end]).
Proof.
  unfold onload, is_2xx, handed_over, emit_error.
  destruct ((200 <=? status) && (status <? 300)); [|reflexivity].
  destruct responseText as [json|]; [|reflexivity].
  cbv zeta.
  destruct (decide (ConvertResult.status (body json) = "error")); [reflexivity|].
  pose proof (addLog_frame (set_xhr None s) "上传完成，等待处理...")
    as (Hl & _ & _ & _ & _ & He).
  unfold pollStatus, poll, skip. run_handler.
  destruct (addLog _ (set_xhr None s)) as [[[] s1] e1]. simpl in *. subst e1.
  destruct (loading s); repeat (simpl; rewrite ?Hl); [|done].
  by rewrite bool_decide_false by naive_solver.
Qed.

Lemma handed_over_frame job s :
  loading (handed_over job s) = loading s ∧
  currentJobId (handed_over job s) = Some job ∧
  progress (handed_over job s) = 0 ∧
  xhr (handed_over job s) = None.
Proof.
  unfold handed_over. simpl.
  destruct (addLog_frame (set_xhr None s) "上传完成，等待处理...")
    as (-> & _ & _ & _ & -> & _). done.
Qed.

End UploadFacts.

(** ** The log on the page *)

Module LogFacts.
Import Uploader World UploaderSpec PollingFacts WorldFacts UploadFacts UploaderFacts.

(** Every handler keeps the log free of equal neighbours. *)
Lemma handler_logs_distinct w ev :
  adjacent_distinct (logs (ui w)) →
  adjacent_distinct (logs (exec (handler w ev) (ui w))).
Proof.
  intros Hl. set (s := ui w) in *. clearbody s.
  destruct ev as [picked| | | |id lc loaded total|id st txt|id|j ms|j out]; simpl.
  - unfold onFileChange. by run_handler.
  - unfold onSubmit, emit_error, skip. run_handler.
    destruct (not_a_dwg (file s)); [done|].
    destruct (file s); simpl; apply adjacent_distinct_singleton.
  - unfold toggleDetails. by run_handler.
  - unfold exec. rewrite cancelUpload_run. apply adjacent_distinct_nil.
  - unfold onprogress, skip. run_handler. by destruct lc.
  - unfold exec. rewrite onload_run.
    destruct (is_2xx st); [|done].
    destruct txt as [json|]; [|done]. simpl.
    destruct (decide (ConvertResult.status (body json) = "error")); [done|].
    simpl. by apply addLog_adjacent_distinct.
  - unfold onerror, emit_error. by run_handler.
  - unfold exec. by rewrite poll_run.
  - destruct out as [| |res]; unfold exec.
    + by rewrite poll_resume_Rejected.
    + by rewrite poll_resume_NotOk.
    + rewrite poll_resume_Ok.
      assert (adjacent_distinct (logs (taken_in res s))) as Ht
        by by apply addLog_adjacent_distinct.
      by repeat case_decide.
Qed.

(** On the page, whatever happens, the log never holds the same message
    twice in a row. *)
Lemma page_logs_distinct evs w :
  run World.init evs = Some w → adjacent_distinct (logs (ui w)).
Proof.
  assert (∀ w0, adjacent_distinct (logs (ui w0)) →
                run w0 evs = Some w → adjacent_distinct (logs (ui w))) as Hgen.
  { induction evs as [|ev evs IH]; intros w0 H0; simpl.
    - by intros [= <-].
    - destruct (step w0 ev) as [w1|] eqn:Hstep; [|done].
      apply IH. apply step_Some in Hstep as [-> _].
      by apply handler_logs_distinct. }
  apply Hgen. apply adjacent_distinct_nil.
Qed.

End LogFacts.

(** ** Claims on polling *)

Module PollingClaims.
Import Uploader World UploaderSpec UploaderScenes PageSpec PollingFacts WorldFacts
  UploadFacts.

(** C1, as stated, fails: [cancelled] is a terminal status, yet on a
    response with that status the component sets the 1000 ms timer and stays
    loading, and the poll that the timer runs sends the next request; so
    does the page that is polling [job-1]. *)
Lemma cancelled_status_keeps_polling :
  terminal_status (ConvertResult.status (reply "cancelled" 40 "cancelled")) = true ∧
  effects (poll_resume "job-1" (Ok (reply "cancelled" 40 "cancelled"))) polling_job1
    = [SetTimeout "job-1" 1000] ∧
  loading (exec (poll_resume "job-1" (Ok (reply "cancelled" 40 "cancelled"))) polling_job1)
    = true ∧
  effects (poll "job-1")
    (exec (poll_resume "job-1" (Ok (reply "cancelled" 40 "cancelled"))) polling_job1)
    = [FetchStatus "job-1"] ∧
  ∃ w, run page_polling
         [EvFetchDone "job-1" (Ok (reply "cancelled" 40 "cancelled"));
          EvTimer "job-1" 1000] = Some w ∧
       trace w = trace page_polling ++ [SetTimeout "job-1" 1000; FetchStatus "job-1"] ∧
       fetches w = ["job-1"] ∧
       loading (ui w) = true.
Proof.
  split_and!; [by vm_compute..|].
  eexists. split; [vm_compute; reflexivity|]. by vm_compute.
Qed.

(** What each segment of [poll] does, and [cancelUpload], on any refs. *)
Lemma poll_segments (s : State) (j : string) (res : ConvertResult.t) :
  poll j s
    = (tt, s, if loading s && bool_decide (currentJobId s = Some j)
              then [FetchStatus j] else []) ∧
  effects (poll_resume j (Ok res)) s
    = (if decide (ConvertResult.status res = "done") then [EmitConvert res]
       else if decide (ConvertResult.status res = "error") then
         [EmitError (ErrText (Js.or_str (ConvertResult.message res) "转换失败"))]
       else [SetTimeout j 1000]) ∧
  loading (exec (poll_resume j (Ok res)) s)
    = (if ends_polling (ConvertResult.status res) then false else loading s) ∧
  currentJobId (exec (poll_resume j (Ok res)) s) = currentJobId s ∧
  poll_resume j Rejected s
    = (tt, s, ConsoleError :: if loading s then [SetTimeout j 2000] else []) ∧
  poll_resume j NotOk s
    = (tt, s, if loading s then [SetTimeout j 2000] else []) ∧
  loading (exec cancelUpload s) = false ∧
  currentJobId (exec cancelUpload s) = None.
Proof.
  destruct (taken_in_frame res s) as (Hl & Hc & _).
  split_and!.
  - apply poll_run.
  - unfold effects. rewrite poll_resume_Ok. by repeat case_decide.
  - unfold exec, ends_polling. rewrite poll_resume_Ok.
    repeat case_decide; repeat case_bool_decide; simpl; done.
  - unfold exec. rewrite poll_resume_Ok. by repeat case_decide.
  - apply poll_resume_Rejected.
  - apply poll_resume_NotOk.
  - unfold exec. by rewrite cancelUpload_run.
  - unfold exec. by rewrite cancelUpload_run.
Qed.

Lemma requested_app es1 es2 :
  requested (es1 ++ es2) = requested es1 ++ requested es2.
Proof. apply omap_app. Qed.

(** An event of the session that does not end it, on a page that is loading
    with [j] current and one poll of [j] under way. *)
Lemma session_step w j ev w' :
  loading (ui w) = true →
  currentJobId (ui w) = Some j →
  one_poll j w →
  in_session j ev = true →
  ends_session ev = false →
  step w ev = Some w' →
  trace w' = trace w ++ cadence j ev ∧
  loading (ui w') = true ∧
  currentJobId (ui w') = Some j ∧
  one_poll j w'.
Proof.
  intros Hl Hc Hone Hin Hend. unfold step.
  destruct (enabled w ev) eqn:Hen; [|done]. intros [= <-].
  unfold one_poll.
  rewrite deliver_ui, deliver_trace, deliver_timers, deliver_fetches,
    consume_ui, consume_trace.
  destruct ev as [picked| | | |id lc loaded total|id st txt|id|j' ms|j' out];
    try discriminate Hin; try discriminate Hend;
    simpl in Hin; apply bool_decide_eq_true in Hin as ->;
    simpl in Hen; apply bool_decide_eq_true in Hen;
    cbn [handler consume cadence].
  - unfold exec, effects. rewrite poll_run. cbn [fst snd].
    rewrite Hl, Hc, bool_decide_true by done. cbn [andb].
    destruct Hone as [[Ht _]|(ms0 & Ht & Hf)].
    { rewrite Ht in Hen. by apply elem_of_nil in Hen. }
    rewrite Ht in Hen. apply list_elem_of_singleton in Hen as [= ->].
    split_and!; [done..|]. left.
    cbn [drop_timer timers fetches]. rewrite Ht, Hf. simpl.
    by rewrite decide_True.
  - destruct Hone as [[Ht Hf]|(ms0 & _ & Hf)]; cycle 1.
    { rewrite Hf in Hen. by apply elem_of_nil in Hen. }
    assert (timers (drop_fetch j w) = [] ∧ fetches (drop_fetch j w) = [])
      as [-> ->].
    { cbn [drop_fetch timers fetches]. rewrite Ht, Hf. simpl.
      by rewrite decide_True. }
    destruct out as [| |res]; unfold exec, effects.
    + rewrite poll_resume_Rejected. cbn [fst snd]. rewrite Hl.
      split_and!; [done..|]. right. by exists 2000.
    + rewrite poll_resume_NotOk. cbn [fst snd]. rewrite Hl.
      split_and!; [done..|]. right. by exists 2000.
    + rewrite poll_resume_Ok. simpl in Hend. unfold ends_polling in Hend.
      apply orb_false_elim in Hend as [Hd He].
      apply bool_decide_eq_false in Hd, He.
      rewrite !decide_False by done. cbn [fst snd].
      destruct (taken_in_frame res (ui w)) as (-> & -> & _).
      split_and!; [done..|]. right. by exists 1000.
Qed.

(** An event of the session that ends it, and any event of the session on a
    page that is not loading: the page is not loading afterwards and no
    status request is sent. *)
Lemma session_over_step w j ev w' :
  in_session j ev = true →
  ends_session ev = true ∨ loading (ui w) = false →
  step w ev = Some w' →
  loading (ui w') = false ∧
  ∃ es, trace w' = trace w ++ es ∧ requested es = [].
Proof.
  intros Hin Hover [-> ->]%step_Some. set (s := ui w) in *. clearbody s.
  destruct ev as [picked| | | |id lc loaded total|id st txt|id|j' ms|j' out];
    try discriminate Hin; cbn [handler].
  - unfold exec, effects. rewrite cancelUpload_run. cbn [fst snd].
    split; [done|]. eexists. split; [done|]. by destruct (xhr s).
  - destruct Hover as [Hend|Hl]; [done|].
    unfold exec, effects. rewrite poll_run. cbn [fst snd]. rewrite Hl.
    split; [done|]. by exists [].
  - destruct out as [| |res]; unfold exec, effects.
    + destruct Hover as [Hend|Hl]; [done|].
      rewrite poll_resume_Rejected. cbn [fst snd]. rewrite Hl.
      split; [done|]. by eexists.
    + destruct Hover as [Hend|Hl]; [done|].
      rewrite poll_resume_NotOk. cbn [fst snd]. rewrite Hl.
      split; [done|]. by eexists.
    + rewrite poll_resume_Ok.
      destruct (taken_in_frame res s) as (Hl' & _).
      repeat case_decide; cbn [fst snd]; try (split; [done|by eexists]).
      destruct Hover as [Hend|Hl].
      * simpl in Hend. unfold ends_polling in Hend.
        rewrite !bool_decide_false in Hend by done. done.
      * rewrite Hl', Hl. split; [done|by eexists].
Qed.

Lemma session_over_run evs : ∀ w j w',
  loading (ui w) = false →
  Forall (λ ev, in_session j ev = true) evs →
  run w evs = Some w' →
  loading (ui w') = false ∧
  ∃ es, trace w' = trace w ++ es ∧ requested es = [].
Proof.
  induction evs as [|ev evs IH]; intros w j w' Hl Hevs; simpl.
  - intros [= <-]. split; [done|]. exists []. by rewrite app_nil_r.
  - apply Forall_cons in Hevs as [Hev Hevs].
    destruct (step w ev) as [w1|] eqn:Hstep; [|done]. intros Hrun.
    destruct (session_over_step w j ev w1 Hev (or_intror Hl) Hstep)
      as (Hl1 & es1 & Ht1 & Hr1).
    destruct (IH w1 j w' Hl1 Hevs Hrun) as (Hl2 & es2 & Ht2 & Hr2).
    split; [done|]. exists (es1 ++ es2).
    rewrite Ht2, Ht1, <- app_assoc, requested_app, Hr1, Hr2. done.
Qed.

(** Where a session starts: on a page that is loading with no poll under
    way, the response that accepts the upload makes its job the current one
    and sends the first status request of that job. *)
Lemma session_starts w id status json w' :
  loading (ui w) = true →
  timers w = [] →
  fetches w = [] →
  accepts status (Some json) = true →
  step w (EvUploadLoad id status (Some json)) = Some w' →
  loading (ui w') = true ∧
  currentJobId (ui w') = Some (ConvertResult.job_id (body json)) ∧
  one_poll (ConvertResult.job_id (body json)) w'.
Proof.
  intros Hl Ht Hf Hacc. unfold step.
  destruct (enabled w (EvUploadLoad id status (Some json))); [|done].
  intros [= <-]. unfold one_poll.
  rewrite deliver_ui, deliver_timers, deliver_fetches.
  cbn [handler consume drop_upload ui timers fetches].
  unfold exec, effects. rewrite onload_run.
  unfold accepts in Hacc. apply andb_true_iff in Hacc as [-> Hne].
  apply bool_decide_eq_true in Hne. rewrite decide_False by done.
  cbn [fst snd]. rewrite Hl, Ht, Hf.
  destruct (handed_over_frame (ConvertResult.job_id (body json)) (ui w))
    as (-> & -> & _).
  split_and!; [done..|]. by left.
Qed.

(** C1, amended.  Take a page that is loading, with job [j] the current one
    and one poll of [j] under way, and let only events of the polling of [j]
    and the cancel button occur.  As long as none of the events is a cancel
    or a status response that says [done] or [error], the page does what the
    cadence says and nothing else: the timer that fires sends
    [GET /status/j], a status response (a [cancelled] one too) sets the next
    poll 1000 ms later, a request that fails or a response that is not ok
    sets it 2000 ms later; the page stays loading with [j] current and with
    one poll of [j] under way.  At the first cancel or response that says
    [done] or [error] the polling stops: the page is no longer loading, and
    neither that event nor any later event of the session sends a status
    request. *)
Theorem polling_session (w : World.t) (j : string) (evs : list Event)
    (w1 : World.t) :
  loading (ui w) = true →
  currentJobId (ui w) = Some j →
  one_poll j w →
  Forall (λ ev, in_session j ev = true ∧ ends_session ev = false) evs →
  run w evs = Some w1 →
  (trace w1 = trace w ++ concat (cadence j <$> evs) ∧
   loading (ui w1) = true ∧
   currentJobId (ui w1) = Some j ∧
   one_poll j w1) ∧
  ∀ ev rest w2,
    in_session j ev = true →
    ends_session ev = true →
    Forall (λ ev', in_session j ev' = true) rest →
    run w1 (ev :: rest) = Some w2 →
    loading (ui w2) = false ∧
    requested (drop (length (trace w1)) (trace w2)) = [].
Proof.
  intros Hl Hc Hone Hevs Hrun. split.
  - revert w Hl Hc Hone Hevs Hrun.
    induction evs as [|ev evs IH]; intros w Hl Hc Hone Hevs; simpl.
    + intros [= <-]. by rewrite app_nil_r.
    + apply Forall_cons in Hevs as [[Hin Hend] Hevs].
      destruct (step w ev) as [w0|] eqn:Hstep; [|done]. intros Hrun.
      destruct (session_step w j ev w0 Hl Hc Hone Hin Hend Hstep)
        as (Ht0 & Hl0 & Hc0 & Hone0).
      destruct (IH w0 Hl0 Hc0 Hone0 Hevs Hrun) as (Ht1 & Hrest).
      split; [|exact Hrest]. by rewrite Ht1, Ht0, <- app_assoc.
  - intros ev rest w2 Hin Hend Hrest. simpl.
    destruct (step w1 ev) as [w0|] eqn:Hstep; [|done]. intros Hrun2.
    destruct (session_over_step w1 j ev w0 Hin (or_introl Hend) Hstep)
      as (Hl0 & es0 & Ht0 & Hr0).
    destruct (session_over_run rest w0 j w2 Hl0 Hrest Hrun2)
      as (Hl2 & es2 & Ht2 & Hr2).
    split; [done|].
    rewrite Ht2, Ht0, <- app_assoc, drop_app_length, requested_app, Hr0, Hr2.
    done.
Qed.

Lemma polling_session_witness :
  ∃ w1, run page_polling session_rounds = Some w1 ∧
        trace w1 = trace page_polling ++
                   [SetTimeout "job-1" 1000; FetchStatus "job-1";
                    SetTimeout "job-1" 2000; FetchStatus "job-1"] ∧
        loading (ui w1) = true.
Proof.
  assert (∃ w1, run page_polling session_rounds = Some w1)
    as [w1 Hrun] by (eexists; vm_compute; reflexivity).
  exists w1. split; [exact Hrun|].
  destruct (polling_session page_polling "job-1" session_rounds w1)
    as [(Ht & Hl & _) _].
  - reflexivity.
  - reflexivity.
  - by left.
  - repeat constructor.
  - exact Hrun.
  - split; [exact Ht|exact Hl].
Defined.

(** The cadence on the page that is polling [job-1]: a response that goes
    on, a response that is not ok, and the response that the job is done. *)
Example polling_rounds :
  ∃ w, run page_polling
         [EvFetchDone "job-1" (Ok (reply "converting" 20 "converting"));
          EvTimer "job-1" 1000;
          EvFetchDone "job-1" NotOk;
          EvTimer "job-1" 2000;
          EvFetchDone "job-1" (Ok (reply "done" 100 "done"))] = Some w ∧
       trace w = trace page_polling ++
                 [SetTimeout "job-1" 1000; FetchStatus "job-1";
                  SetTimeout "job-1" 2000; FetchStatus "job-1";
                  EmitConvert (reply "done" 100 "done")] ∧
       timers w = [] ∧ fetches w = [] ∧ loading (ui w) = false.
Proof.
  eexists. split; [vm_compute; reflexivity|]. by vm_compute.
Qed.

(** The guard at the head of [poll]: a timer set for a job that is not the
    current one (another job has taken over, or the job was cleared by a
    cancel) fires without any change: the refs, with progress, message and
    logs, are as before, nothing is added to the trace, no request is sent,
    and the timers are the old ones less the one that fired. *)
Lemma stale_poll_is_inert (w : World.t) (j : string) (ms : Z) :
  currentJobId (ui w) ≠ Some j →
  (j, ms) ∈ timers w →
  step w (EvTimer j ms) = Some (drop_timer j ms w).
Proof.
  intros Hj Hin. unfold step, enabled. rewrite bool_decide_true by done.
  f_equal. unfold deliver, exec, effects. simpl. rewrite poll_run.
  rewrite bool_decide_false by done. rewrite andb_false_r. simpl.
  unfold drop_timer. by rewrite app_nil_r.
Qed.

Lemma stale_poll_is_inert_at_job2 :
  step page_with_stale_timer (EvTimer "job-1" 1000)
  = Some (drop_timer "job-1" 1000 page_with_stale_timer).
Proof.
  apply (stale_poll_is_inert page_with_stale_timer "job-1" 1000).
  - simpl. discriminate.
  - simpl. apply list_elem_of_here.
Qed.

(** C9 does not hold of the code.  The guard of [poll] is tested before the
    status request is sent and not again when the response is there: the
    response of a poll that was awaiting its request when the job was
    cancelled and another took over is taken in as if the job were current.
    On the page of [two_jobs], where [job-2] is current and shows 50, the
    late response for [job-1] lowers the progress shown to 35, replaces the
    message, adds a line to the log and sets a timer for [job-1]; and a late
    response that says [done] for [job-1] ends the loading state and emits
    [convert] with the result of the cancelled job, after which the timer of
    [job-2] fires without sending its request. *)
Theorem late_response_is_taken_in :
  ∃ w0,
    run World.init two_jobs = Some w0 ∧
    loading (ui w0) = true ∧
    currentJobId (ui w0) = Some "job-2" ∧
    progress (ui w0) = 50 ∧
    progressMsg (ui w0) = "converting" ∧
    timers w0 = [("job-2", 1000)] ∧
    fetches w0 = ["job-1"] ∧
    (∃ w1,
       step w0 (EvFetchDone "job-1" (Ok (reply "tiling" 35 "tiling"))) = Some w1 ∧
       currentJobId (ui w1) = Some "job-2" ∧
       progress (ui w1) = 35 ∧
       progressMsg (ui w1) = "tiling" ∧
       logs (ui w1) = logs (ui w0) ++ ["tiling"] ∧
       timers w1 = [("job-2", 1000); ("job-1", 1000)] ∧
       trace w1 = trace w0 ++ [SetTimeout "job-1" 1000]) ∧
    (∃ w2,
       run w0 [EvFetchDone "job-1" (Ok (reply "done" 100 "done"));
               EvTimer "job-2" 1000] = Some w2 ∧
       currentJobId (ui w2) = Some "job-2" ∧
       loading (ui w2) = false ∧
       timers w2 = [] ∧
       fetches w2 = [] ∧
       trace w2 = trace w0 ++ [EmitConvert (reply "done" 100 "done")]).
Proof.
  eexists. split; [vm_compute; reflexivity|].
  split_and!; try reflexivity.
  - eexists. split; [vm_compute; reflexivity|]. by vm_compute.
  - eexists. split; [vm_compute; reflexivity|]. by vm_compute.
Qed.

End PollingClaims.

(** ** Claims on cancellation *)

Module CancelClaims.
Import Uploader World UploaderSpec UploaderScenes PollingFacts WorldFacts UploadFacts.






End CancelClaims.

(** ** Claims on the upload response *)

Module UploadClaims.
Import Uploader World UploaderSpec UploaderScenes PollingFacts WorldFacts UploadFacts.

Lemma is_2xx_true status : is_2xx status = true ↔ 200 ≤ status < 300.
Proof. unfold is_2xx. rewrite andb_true_iff, Z.leb_le, Z.ltb_lt. done. Qed.

(** C5.  On a 2xx response to [POST /convert] whose body has the status
    [error], [onload] ends the loading state and emits the message of the
    body (a fixed text when the body has none) as an error; it sends no
    status request and leaves the current job alone.  In general [onload]
    sends a status request for [j] exactly when the component is loading
    and the response is 2xx with a body that parses, is no error body and
    names [j]. *)
Theorem error_body_never_polls (s : State) (status : Z) (json : ResponseJson) :
  200 ≤ status < 300 →
  ConvertResult.status (body json) = "error" →
  onload status (Some json) s
    = (tt, set_loading false (set_xhr None s),
       [EmitError (ErrText (Js.or_str (ConvertResult.message (body json)) "转换失败"))]) ∧
  (∀ m, ConvertResult.message (body json) = Some m → m ≠ "" →
     effects (onload status (Some json)) s = [EmitError (ErrText m)]) ∧
  (∀ j, FetchStatus j ∉ effects (onload status (Some json)) s) ∧
  currentJobId (exec (onload status (Some json)) s) = currentJobId s ∧
  (∀ s' status' responseText j,
     FetchStatus j ∈ effects (onload status' responseText) s' ↔
     loading s' = true ∧ 200 ≤ status' < 300 ∧
     ∃ json', responseText = Some json' ∧
              ConvertResult.status (body json') ≠ "error" ∧
              ConvertResult.job_id (body json') = j).
Proof.
  intros Hst%is_2xx_true Herr.
  assert (onload status (Some json) s
    = (tt, set_loading false (set_xhr None s),
       [EmitError (ErrText (Js.or_str (ConvertResult.message (body json)) "转换失败"))]))
    as Hrun.
  { rewrite onload_run, Hst. simpl. by rewrite decide_True. }
  split_and!.
  - done.
  - intros m Hm Hne. unfold effects. rewrite Hrun, Hm. simpl.
    by rewrite decide_False.
  - intros j. unfold effects. rewrite Hrun. simpl.
    rewrite elem_of_cons, elem_of_nil. intuition congruence.
  - unfold exec. by rewrite Hrun.
  - intros s' status' txt j. unfold effects. rewrite onload_run.
    rewrite <- is_2xx_true.
    destruct (is_2xx status'); simpl.
    + destruct txt as [json'|]; simpl.
      * destruct (decide (ConvertResult.status (body json') = "error")); simpl.
        -- rewrite elem_of_cons, elem_of_nil. split; [intuition congruence|].
           intros (_ & _ & json'' & [= <-] & Hne & _). done.
        -- destruct (loading s'); simpl;
             rewrite ?elem_of_cons, elem_of_nil.
           ++ split.
              ** intros [[= ->]|[]]. eauto 10.
              ** intros (_ & _ & json'' & [= <-] & _ & <-). by left.
           ++ split; [done|]. by intros [[=] _].
      * rewrite elem_of_cons, elem_of_nil. split; [intuition congruence|].
        by intros (_ & _ & json'' & [=] & _).
    + rewrite elem_of_cons, elem_of_nil. split; [intuition congruence|].
      by intros (_ & [=] & _).
Qed.

Lemma error_body_never_polls_witness :
  onload 200 (Some refused) uploading
    = (tt, set_loading false (set_xhr None uploading),
       [EmitError (ErrText "仅支持 .dwg 文件")]) ∧
  effects (onload 200 (Some refused)) uploading
    = [EmitError (ErrText "仅支持 .dwg 文件")].
Proof.
  destruct (error_body_never_polls uploading 200 refused) as (H1 & H2 & _).
  - lia.
  - reflexivity.
  - split; [exact H1|].
    apply (H2 "仅支持 .dwg 文件"); [reflexivity|discriminate].
Defined.

End UploadClaims.

(** ** Claims on the progress shown *)

Module ProgressClaims.
Import Uploader World UploaderSpec UploaderScenes PageSpec PollingFacts WorldFacts
  UploadFacts.

(** C7, as stated, fails: the progress shown goes up to 100 while the file
    is uploaded and back to 0 when the upload is accepted, with the job
    still running and no terminal status seen. *)
Lemma progress_falls_after_upload :
  ∃ w, run World.init upload_then_accept = Some w ∧
       loading (ui w) = true ∧
       currentJobId (ui w) = Some "job-1" ∧
       shown_progress World.init upload_then_accept = [0; 0; 100; 0] ∧
       ¬ Sorted Z.le (shown_progress World.init upload_then_accept).
Proof.
  eexists. split; [vm_compute; reflexivity|].
  split; [reflexivity|]. split; [reflexivity|]. split; [reflexivity|].
  change (shown_progress World.init upload_then_accept) with [0; 0; 100; 0].
  intros H. inversion H as [|? ? H1 _]; subst.
  inversion H1 as [|? ? H2 _]; subst.
  inversion H2 as [|? ? _ H3]; subst.
  inversion H3 as [|? ? Hle]; subst. lia.
Qed.

Lemma step_polls_of w j ev w' :
  polls_of j ev = true →
  step w ev = Some w' →
  progress (ui w') = default (progress (ui w)) (reported j ev).
Proof.
  intros Hev [-> _]%step_Some. set (s := ui w). clearbody s.
  destruct ev as [picked| | | |id lc loaded total|id st txt|id|j' ms|j' out];
    try discriminate Hev; simpl in Hev;
    apply bool_decide_eq_true in Hev as ->; cbn [handler reported].
  - unfold exec. by rewrite poll_run.
  - destruct out as [| |res]; unfold exec.
    + by rewrite poll_resume_Rejected.
    + by rewrite poll_resume_NotOk.
    + rewrite decide_True by done. rewrite poll_resume_Ok.
      destruct (taken_in_frame res s) as (_ & _ & _ & Hp & _).
      by repeat case_decide.
Qed.

Lemma follow_sorted j evs : ∀ p,
  Sorted Z.le (p :: omap (reported j) evs) → Sorted Z.le (p :: follow j p evs).
Proof.
  induction evs as [|ev evs IH]; intros p; simpl; [done|].
  destruct (reported j ev) as [q|]; simpl.
  - intros H. inversion H as [|? ? Hs Hhd]; subst.
    inversion Hhd; subst. constructor; [by apply IH|by constructor].
  - intros H. constructor; [by apply IH|]. constructor. lia.
Qed.

(** C7, amended.  Over the events of the polling of a job (its timers and
    the ends of its status requests), the progress shown after each event
    is the progress of the latest status response for that job ([0] when the
    response has none), and the value shown at the start as long as there
    was no response; so the progress shown never falls if the progress that
    the server reports for the job never falls, from the value shown at the
    start on.  The response that accepts an upload sets the progress shown
    to [0], whatever was shown while the file was uploaded. *)
Theorem shown_progress_follows_server (w : World.t) (j : string)
    (evs : list Event) (w' : World.t) :
  Forall (λ ev, polls_of j ev = true) evs →
  run w evs = Some w' →
  shown_progress w evs = follow j (progress (ui w)) evs ∧
  (Sorted Z.le (progress (ui w) :: omap (reported j) evs) →
   Sorted Z.le (progress (ui w) :: shown_progress w evs)) ∧
  ∀ w0 id status json w1,
    accepts status (Some json) = true →
    step w0 (EvUploadLoad id status (Some json)) = Some w1 →
    progress (ui w1) = 0.
Proof.
  intros Hevs Hrun.
  assert (shown_progress w evs = follow j (progress (ui w)) evs) as ->.
  { revert w Hevs Hrun.
    induction evs as [|ev evs IH]; intros w Hevs; simpl; [done|].
    apply Forall_cons in Hevs as [Hev Hevs].
    destruct (step w ev) as [w1|] eqn:Hstep; [|done].
    intros Hrun. rewrite (IH w1 Hevs Hrun).
    by rewrite (step_polls_of w j ev w1 Hev Hstep). }
  split; [done|]. split; [apply follow_sorted|].
  intros w0 id status json w1 Hacc [-> _]%step_Some.
  cbn [handler]. unfold exec. rewrite onload_run.
  unfold accepts in Hacc. apply andb_true_iff in Hacc as [-> Hne].
  apply bool_decide_eq_true in Hne. rewrite decide_False by done.
  cbn [fst snd].
  by destruct (handed_over_frame (ConvertResult.job_id (body json)) (ui w0))
    as (_ & _ & -> & _).
Qed.

Lemma shown_progress_follows_server_witness :
  shown_progress page_polling status_replies = [10; 10; 10; 10; 55] ∧
  Sorted Z.le (0 :: shown_progress page_polling status_replies).
Proof.
  assert (∃ w', run page_polling status_replies = Some w')
    as [w' Hrun] by (eexists; vm_compute; reflexivity).
  destruct (shown_progress_follows_server page_polling "job-1" status_replies w')
    as (Hshown & Hsorted & _).
  - repeat constructor.
  - exact Hrun.
  - split; [exact Hshown|]. apply Hsorted.
    simpl. repeat constructor; lia.
Defined.

End ProgressClaims.

(** ** The map component *)

Module MapFacts.
Import MapView MapSpec.

Lemma map_only_ret {A} (a : A) : map_only (mret a : Act State Effect A).
Proof. intros s. run_handler. split_and!; try done. intros bb. apply not_elem_of_nil. Qed.

Lemma map_only_gets {A} (f : State → A) : map_only (gets f).
Proof. intros s. run_handler. split_and!; try done. intros bb. apply not_elem_of_nil. Qed.

Lemma map_only_tell e : (∀ bbox, e ≠ FitBounds bbox) → map_only (tell e).
Proof.
  intros He s. run_handler. split_and!; try done.
  intros bb [Heq|[]%elem_of_nil]%elem_of_cons. by apply (He bb).
Qed.

Lemma map_only_on_map f : map_only (modify (on_map f)).
Proof.
  intros s. run_handler. split_and!; try done.
  - intros [h ->]. simpl. eauto.
  - intros bb. apply not_elem_of_nil.
Qed.

Lemma map_only_bind {A B} (m : Act State Effect A) (k : A → Act State Effect B) :
  map_only m → (∀ a, map_only (k a)) → map_only (m ≫= k).
Proof.
  intros Hm Hk s. rewrite exec_bind, effects_bind.
  destruct (Hm s) as (H1 & H2 & H3 & H4 & Hmap & Hfit).
  destruct (Hk (fst (fst (m s))) (exec m s)) as (K1 & K2 & K3 & K4 & Hmap' & Hfit').
  split_and!; try congruence.
  - auto.
  - intros bb [?|?]%elem_of_app; [by eapply Hfit|by eapply Hfit'].
Qed.

Lemma map_only_when c h : map_only h → map_only (when c h).
Proof. destruct c; [done|]. intros _. apply map_only_ret. Qed.

(** Take a handler built from calls on the map apart. *)
Ltac map_only :=
  repeat first
    [ apply map_only_bind; [|intros ?]
    | apply map_only_when
    | apply map_only_ret
    | apply map_only_gets
    | apply map_only_on_map
    | apply map_only_tell; discriminate
    | match goal with
      | |- map_only (match ?x with _ => _ end) => destruct x
      | |- map_only (if ?b then _ else _) => destruct b
      end ].

Lemma map_only_getLayer id : map_only (getLayer id).
Proof. unfold getLayer. map_only. Qed.

Lemma map_only_getSource id : map_only (getSource id).
Proof. unfold getSource. map_only. Qed.

Lemma map_only_dropLayer id : map_only (dropLayer id).
Proof.
  unfold dropLayer, removeLayer.
  apply map_only_bind; [apply map_only_getLayer|intros ?]. map_only.
Qed.

Lemma map_only_updateMapFilters : map_only updateMapFilters.
Proof.
  unfold updateMapFilters, skip.
  repeat first
    [ apply map_only_getLayer
    | apply map_only_bind; [|intros ?]
    | apply map_only_when
    | apply map_only_ret
    | apply map_only_gets
    | apply map_only_tell; discriminate
    | match goal with
      | |- map_only (match ?x with _ => _ end) => destruct x
      end ].
Qed.

Lemma map_only_renderMapLayers : map_only renderMapLayers.
Proof.
  unfold renderMapLayers, skip, removeSource, addSource, addLayer.
  repeat first
    [ apply map_only_dropLayer
    | apply map_only_getSource
    | apply map_only_updateMapFilters
    | apply map_only_bind; [|intros ?]
    | apply map_only_when
    | apply map_only_ret
    | apply map_only_gets
    | apply map_only_on_map
    | apply map_only_tell; discriminate
    | match goal with
      | |- map_only (match ?x with _ => _ end) => destruct x
      | |- map_only (if ?b then _ else _) => destruct b
      end ].
Qed.

End MapFacts.

(** ** Claims on the map component *)

Module MapClaims.
Import MapView MapSpec MapScenes MapFacts.

(** *** Bounds *)

Lemma Qltb_true x y : Js.Qltb x y = true ↔ (x < y)%Q.
Proof.
  unfold Js.Qltb. rewrite negb_true_iff, <- not_true_iff_false, Qle_bool_iff.
  split; [apply Qnot_le_lt|apply Qlt_not_le].
Qed.

Lemma isValid_true n : isValid (Some n) = true ↔ in_range n.
Proof.
  unfold isValid, in_range. destruct n as [q| | |]; simpl.
  - rewrite Qltb_true, Qabs_Qlt_condition. split; [by exists q|].
    by intros (? & [= <-] & ?).
  - split; [done|]. by intros (? & [=] & _).
  - split; [done|]. by intros (? & [=] & _).
  - split; [done|]. by intros (? & [=] & _).
Qed.

Lemma isValidLat_true n : isValidLat (Some n) = true ↔ is_latitude n.
Proof.
  unfold isValidLat, is_latitude. destruct n as [q| | |]; simpl.
  - rewrite andb_true_iff, !Qle_bool_iff. split; [by exists q|].
    by intros (? & [= <-] & ?).
  - split; [done|]. by intros (? & [=] & _).
  - split; [done|]. by intros (? & [=] & _).
  - split; [done|]. by intros (? & [=] & _).
Qed.

Lemma valid_bounds_true minX minY maxX maxY :
  valid_bounds [minX; minY; maxX; maxY] = true ↔ usable minX minY maxX maxY.
Proof.
  unfold valid_bounds, usable. simpl.
  rewrite !andb_true_iff, !isValid_true, !isValidLat_true. tauto.
Qed.

Lemma resetView_fit s h res bbox :
  map s = Some h → result s = Some res → ConvertResult.bbox res = Some bbox →
  ∀ x, FitBounds x ∈ effects resetView s ↔ x = bbox ∧ valid_bounds bbox = true.
Proof.
  intros Hm Hr Hb x. unfold resetView. run_handler.
  rewrite Hm, Hr. simpl. rewrite Hb.
  destruct (valid_bounds bbox); simpl; rewrite elem_of_cons, elem_of_nil;
    intuition congruence.
Qed.

Lemma watch_finish_fit s h nv bbox :
  map s = Some h → ConvertResult.bbox nv = Some bbox →
  ∀ x, FitBounds x ∈ effects (watch_finish nv) s ↔ x = bbox ∧ valid_bounds bbox = true.
Proof.
  intros Hm Hb x. unfold watch_finish.
  rewrite effects_bind, elem_of_app.
  destruct (map_only_renderMapLayers s) as (_ & _ & _ & _ & Hmap & Hfit).
  destruct Hmap as [h' Hm']; [by rewrite Hm|].
  set (s1 := exec renderMapLayers s) in *. clearbody s1.
  rewrite Hb. run_handler.
  destruct (valid_bounds bbox); simpl; rewrite ?Hm'; simpl;
    rewrite !elem_of_cons, elem_of_nil; split;
    try (intros [?|?]; [by (exfalso; eapply Hfit)|]); intuition congruence.
Qed.

Lemma watch_resume_fit s h nv out bbox :
  map s = Some h → ConvertResult.bbox nv = Some bbox →
  ∀ x, FitBounds x ∈ effects (watch_resume nv out) s ↔ x = bbox ∧ valid_bounds bbox = true.
Proof.
  intros Hm Hb x. unfold watch_resume.
  rewrite effects_bind, elem_of_app.
  rewrite (watch_finish_fit _ h nv bbox); [|by destruct out|done].
  split; [|tauto]. intros [Hin|?]; [|done]. exfalso. revert Hin.
  destruct out; run_handler; rewrite ?elem_of_cons, elem_of_nil; intuition congruence.
Qed.

Lemma watch_result_fit s h nv bbox :
  map s = Some h → ConvertResult.bbox nv = Some bbox →
  ∀ x, FitBounds x ∈ effects (watch_result (Some nv)) s ↔
       ConvertResult.job_id nv = "" ∧ x = bbox ∧ valid_bounds bbox = true.
Proof.
  intros Hm Hb x. unfold watch_result.
  rewrite effects_bind. unfold gets at 1, effects at 1, exec at 1. simpl.
  rewrite Hm. destruct (decide (ConvertResult.job_id nv = "")) as [Hj|Hj].
  - rewrite (watch_finish_fit s h nv bbox) by done. tauto.
  - run_handler. rewrite elem_of_cons, elem_of_nil. intuition congruence.
Qed.

(** C2.  With the map there and a box of four coordinates in the result,
    [fitBounds] is called, and then with that box, exactly when the four
    are finite and strictly within ±1e20 and both Y values are from -90 to
    90: in [resetView], and in the watcher where it goes on after the
    layers request (and where it runs through because the result has no
    job id).  The box [1e21, 0, 1, 1] fails the test and the box
    [-10, -5, 10, 5] passes it. *)
Theorem fitBounds_iff_usable (s : State) (h : Maplibre) (res : ConvertResult.t)
    (minX minY maxX maxY : Js.number) (out : LayersOutcome) :
  map s = Some h →
  ConvertResult.bbox res = Some [minX; minY; maxX; maxY] →
  (∀ x, FitBounds x ∈ effects resetView (set_result (Some res) s) ↔
        x = [minX; minY; maxX; maxY] ∧ usable minX minY maxX maxY) ∧
  (∀ x, FitBounds x ∈ effects (watch_resume res out) s ↔
        x = [minX; minY; maxX; maxY] ∧ usable minX minY maxX maxY) ∧
  (∀ x, FitBounds x ∈ effects (watch_result (Some res)) s ↔
        ConvertResult.job_id res = "" ∧
        x = [minX; minY; maxX; maxY] ∧ usable minX minY maxX maxY) ∧
  ¬ usable (Js.Fin (inject_Z (10 ^ 21))) (Js.Fin 0) (Js.Fin 1) (Js.Fin 1) ∧
  usable (Js.Fin (inject_Z (-10))) (Js.Fin (inject_Z (-5)))
         (Js.Fin (inject_Z 10)) (Js.Fin (inject_Z 5)).
Proof.
  intros Hm Hb. split_and!.
  - intros x. rewrite <- valid_bounds_true.
    by apply (resetView_fit _ h res).
  - intros x. rewrite <- valid_bounds_true. by apply (watch_resume_fit _ h).
  - intros x. rewrite <- valid_bounds_true. by apply (watch_result_fit _ h).
  - rewrite <- valid_bounds_true. by vm_compute.
  - rewrite <- valid_bounds_true. by vm_compute.
Qed.

Lemma fitBounds_iff_usable_witness :
  FitBounds box_ok ∈ effects resetView (set_result (Some (done_with box_ok)) mounted) ∧
  FitBounds box_ok
    ∈ effects (watch_resume (done_with box_ok) (LayersOk (Names ["0"; "walls"]))) mounted.
Proof.
  destruct (fitBounds_iff_usable mounted
              {| style_layers := {["background"]}; style_sources := ∅ |}
              (done_with box_ok)
              (Js.Fin (inject_Z (-10))) (Js.Fin (inject_Z (-5)))
              (Js.Fin (inject_Z 10)) (Js.Fin (inject_Z 5))
              (LayersOk (Names ["0"; "walls"])))
    as (H1 & H2 & _ & _ & Hok).
  - reflexivity.
  - reflexivity.
  - split; [apply H1|apply H2]; (split; [reflexivity|exact Hok]).
Defined.

Example box_far_is_refused :
  effects resetView (set_result (Some (done_with box_far)) mounted) = [ConsoleWarn] ∧
  ∀ x, FitBounds x
         ∉ effects (watch_resume (done_with box_far) (LayersOk (Names ["0"; "walls"])))
             mounted.
Proof.
  split; [by vm_compute|].
  intros x Hx.
  apply (watch_resume_fit mounted
           {| style_layers := {["background"]}; style_sources := ∅ |}
           (done_with box_far) _ box_far) in Hx as [_ Hv]; [|done..].
  by vm_compute in Hv.
Qed.

(** *** Layers *)

Lemma watch_finish_frame s nv :
  layers (exec (watch_finish nv) s) = layers s ∧
  selectedLayers (exec (watch_finish nv) s) = selectedLayers s.
Proof.
  unfold watch_finish. rewrite exec_bind.
  destruct (map_only_renderMapLayers s) as (_ & Hl & Hs & _).
  set (s2 := exec renderMapLayers s) in *. clearbody s2.
  rewrite <- Hl, <- Hs. run_handler.
  destruct (ConvertResult.bbox nv) as [bb|]; [|done].
  destruct (valid_bounds bb); [|done]. run_handler.
  by destruct (map s2).
Qed.

Lemma watch_resume_layers s nv data :
  layers (exec (watch_resume nv (LayersOk data)) s) = normalize data ∧
  selectedLayers (exec (watch_resume nv (LayersOk data)) s)
    = list_to_set (name <$> normalize data).
Proof.
  unfold watch_resume. rewrite exec_bind.
  match goal with
  | |- layers (exec _ ?s1) = _ ∧ _ =>
      destruct (watch_finish_frame s1 nv) as [Hl Hs]
  end.
  split; [etrans; [exact Hl|]|etrans; [exact Hs|]]; by run_handler.
Qed.

(** C6.  When the layers request ends with a body, the watcher keeps a
    list of descriptors: for a non-empty array of names, each name with the
    colour [#9ca3af], in the order of the array; for an array of
    descriptors, the array as it is.  The selected layers are then exactly
    the names of the list kept.  The request itself is sent for a result
    with a job id while the map is there. *)
Theorem layers_are_normalized (s : State) (nv : ConvertResult.t)
    (n : string) (ns : list string) (ds : list Layer) (data : LayersData) :
  layers (exec (watch_resume nv (LayersOk (Names (n :: ns)))) s)
    = with_default_color <$> (n :: ns) ∧
  layers (exec (watch_resume nv (LayersOk (Descriptors ds))) s) = ds ∧
  selectedLayers (exec (watch_resume nv (LayersOk data)) s)
    = list_to_set (name <$> layers (exec (watch_resume nv (LayersOk data)) s)) ∧
  (∀ x, x ∈ selectedLayers (exec (watch_resume nv (LayersOk data)) s) ↔
        ∃ l, l ∈ layers (exec (watch_resume nv (LayersOk data)) s) ∧ name l = x) ∧
  effects (watch_result (Some nv)) (set_map (Some {| style_layers := {["background"]};
                                                     style_sources := ∅ |}) s)
    = (if decide (ConvertResult.job_id nv = "")
       then effects (watch_finish nv)
              (set_map (Some {| style_layers := {["background"]};
                                style_sources := ∅ |}) s)
       else [FetchLayers (ConvertResult.job_id nv)]).
Proof.
  split_and!.
  - by destruct (watch_resume_layers s nv (Names (n :: ns))) as [-> _].
  - by destruct (watch_resume_layers s nv (Descriptors ds)) as [-> _].
  - by destruct (watch_resume_layers s nv data) as [-> ->].
  - intros x. destruct (watch_resume_layers s nv data) as [-> ->].
    rewrite elem_of_list_to_set, list_elem_of_fmap.
    split; intros (l & H1 & H2); exists l; by split.
  - unfold watch_result. rewrite effects_bind. simpl.
    unfold exec, effects, gets. simpl. by case_decide.
Qed.

Lemma layers_are_normalized_witness :
  layers (exec (watch_resume (done_with box_ok) (LayersOk (Names ["0"; "walls"]))) mounted)
  = [{| name := "0"; color := "#9ca3af" |}; {| name := "walls"; color := "#9ca3af" |}].
Proof.
  apply (layers_are_normalized mounted (done_with box_ok) "0" ["walls"] [] (Names [])).
Defined.

(** *** Toggling a layer *)

Lemma toggleLayer_selected s layerName :
  selectedLayers (exec (toggleLayer layerName) s)
  = if decide (layerName ∈ selectedLayers s)
    then selectedLayers s ∖ {[layerName]}
    else selectedLayers s ∪ {[layerName]}.
Proof.
  unfold toggleLayer. rewrite exec_bind. cbv beta. rewrite exec_bind. cbv beta.
  match goal with
  | |- selectedLayers (exec updateMapFilters ?s1) = _ =>
      destruct (map_only_updateMapFilters s1) as (_ & _ & Hs & _)
  end.
  etrans; [exact Hs|]. by run_handler.
Qed.

(** C10.  Two calls of [toggleLayer] with the same name give back the
    selected set there was; one call turns the membership of that name
    over and leaves the membership of every other name as it was. *)
Theorem toggleLayer_involution (s : State) (layerName other : string) :
  selectedLayers (exec (toggleLayer layerName) (exec (toggleLayer layerName) s))
    = selectedLayers s ∧
  (layerName ∈ selectedLayers (exec (toggleLayer layerName) s) ↔
   layerName ∉ selectedLayers s) ∧
  (other ≠ layerName →
   (other ∈ selectedLayers (exec (toggleLayer layerName) s) ↔
    other ∈ selectedLayers s)).
Proof.
  rewrite !toggleLayer_selected.
  destruct (decide (layerName ∈ selectedLayers s)) as [Hin|Hout].
  - rewrite decide_False by (set_unfold; tauto). split_and!.
    + apply set_eq. intros x. set_unfold.
      destruct (decide (x = layerName)) as [->|]; tauto.
    + set_unfold. tauto.
    + intros Hne. set_unfold. tauto.
  - rewrite decide_True by (set_unfold; tauto). split_and!.
    + apply set_eq. intros x. set_unfold.
      destruct (decide (x = layerName)) as [->|]; tauto.
    + set_unfold. tauto.
    + intros Hne. set_unfold. tauto.
Qed.

Lemma toggleLayer_involution_witness :
  selectedLayers (exec (toggleLayer "walls") (exec (toggleLayer "walls") two_selected))
    = selectedLayers two_selected ∧
  ("walls" ∈ selectedLayers (exec (toggleLayer "walls") two_selected) ↔
   "walls" ∉ selectedLayers two_selected) ∧
  ("0" ∈ selectedLayers (exec (toggleLayer "walls") two_selected) ↔
   "0" ∈ selectedLayers two_selected).
Proof.
  destruct (toggleLayer_involution two_selected "walls" "0") as (H1 & H2 & H3).
  split; [exact H1|]. split; [exact H2|]. apply H3. discriminate.
Defined.

End MapClaims.

(** * More properties of the uploader and its page *)

Module PageFacts.
Import Uploader World UploaderSpec UploaderScenes PageSpec PageScenes.
Import PollingFacts WorldFacts UploadFacts UploaderFacts.

(** Membership in a list of effects given in full, as a hypothesis. *)
Ltac listed H :=
  simpl in H; rewrite ?elem_of_cons, ?elem_of_nil in H.

Ltac not_listed H :=
  exfalso; simpl in H; revert H; rewrite ?elem_of_cons, ?elem_of_nil;
  intuition congruence.

(** Every status request is for the job that is current, sent while the
    component is loading: whatever event runs, if its handler sends
    [GET /status/j], then afterwards [j] is the current job and the
    component is loading. *)
Theorem requests_are_for_current_job (w : World.t) (ev : Event) (w' : World.t)
    (j : string) :
  step w ev = Some w' →
  FetchStatus j ∈ effects (handler w ev) (ui w) →
  loading (ui w') = true ∧ currentJobId (ui w') = Some j.
Proof.
  intros [-> _]%step_Some. set (s := ui w). clearbody s.
  destruct ev as [picked| | | |id lc loaded total|id st txt|id|j' ms|j' out]; simpl.
  - unfold onFileChange. run_handler. intros Hin. not_listed Hin.
  - unfold onSubmit, emit_error, skip. run_handler.
    destruct (not_a_dwg (file s)); [|destruct (file s)]; simpl;
      intros Hin; not_listed Hin.
  - unfold toggleDetails. run_handler. intros Hin. not_listed Hin.
  - unfold exec, effects. rewrite cancelUpload_run. simpl.
    destruct (xhr s); intros Hin; not_listed Hin.
  - unfold onprogress, skip. run_handler.
    destruct lc; simpl; intros Hin; not_listed Hin.
  - unfold exec, effects. rewrite onload_run.
    destruct (is_2xx st); cbn [fst snd]; [|intros Hin; not_listed Hin].
    destruct txt as [json|]; cbn [fst snd]; [|intros Hin; not_listed Hin].
    cbv zeta.
    destruct (decide (ConvertResult.status (body json) = "error")); cbn [fst snd];
      [intros Hin; not_listed Hin|].
    destruct (loading s) eqn:Hl; [|intros Hin; not_listed Hin].
    intros Hin. listed Hin. destruct Hin as [[= ->]|[]].
    destruct (handed_over_frame (ConvertResult.job_id (body json)) s)
      as (Hl' & Hc & _).
    by rewrite Hl', Hc.
  - unfold onerror, emit_error. run_handler. intros Hin. not_listed Hin.
  - unfold exec, effects. rewrite poll_run. simpl.
    destruct (loading s); simpl; [|intros Hin; not_listed Hin].
    case_bool_decide; [|intros Hin; not_listed Hin].
    intros Hin. listed Hin. destruct Hin as [[= ->]|[]]. done.
  - destruct out as [| |res]; unfold exec, effects.
    + rewrite poll_resume_Rejected. simpl.
      destruct (loading s); intros Hin; not_listed Hin.
    + rewrite poll_resume_NotOk. simpl.
      destruct (loading s); intros Hin; not_listed Hin.
    + rewrite poll_resume_Ok.
      repeat case_decide; simpl; intros Hin; not_listed Hin.
Qed.

Lemma requests_are_for_current_job_witness :
  loading (ui page_polling) = true ∧ currentJobId (ui page_polling) = Some "job-1".
Proof.
  apply (requests_are_for_current_job page_timer_set (EvTimer "job-1" 1000)
           page_polling "job-1").
  - vm_compute. reflexivity.
  - vm_compute. apply list_elem_of_here.
Defined.

Lemma onSubmit_run s id :
  onSubmit id s
  = match file s with
    | Some fl =>
        if Js.endsWith (Js.toLowerCase (name fl)) ".dwg"
        then (tt, submitted id s, [EmitError (ErrText ""); XhrSend id fl])
        else (tt, s, [EmitError (ErrText "请选择 .dwg 文件")])
    | None => (tt, s, [EmitError (ErrText "请选择 .dwg 文件")])
    end.
Proof.
  unfold onSubmit, emit_error, skip, submitted. run_handler.
  destruct (file s) as [fl|]; simpl; [|done].
  by destruct (Js.endsWith _ _).
Qed.

Lemma onprogress_run s lc loaded total :
  onprogress lc loaded total s
  = if lc then
      (tt, set_progressMsg ("正在上传... " +:+ pretty (percent loaded total) +:+ "%")
             (set_progress (percent loaded total) s), [])
    else (tt, s, []).
Proof. unfold onprogress, skip. run_handler. by destruct lc. Qed.

Lemma onerror_run s :
  onerror s = (tt, set_loading false (set_xhr None s), [EmitError (ErrText "网络错误")]).
Proof. unfold onerror, emit_error. by run_handler. Qed.

(** [emit('convert', res)] happens in one place only: whatever event runs,
    its handler emits the result [r] exactly when the event is a status
    response with the body [r] whose status is [done]. *)
Theorem convert_only_when_done (w : World.t) (ev : Event) (r : ConvertResult.t) :
  EmitConvert r ∈ effects (handler w ev) (ui w) ↔
  ∃ j, ev = EvFetchDone j (Ok r) ∧ ConvertResult.status r = "done".
Proof.
  set (s := ui w). clearbody s.
  destruct ev as [picked| | | |id lc loaded total|id st txt|id|j' ms|j' out];
    simpl; unfold effects.
  - unfold onFileChange. run_handler. split; [intros Hin; not_listed Hin|by intros (? & [=] & _)].
  - rewrite onSubmit_run. split; [|by intros (? & [=] & _)].
    destruct (file s); [destruct (Js.endsWith _ _)|]; simpl; intros Hin; not_listed Hin.
  - unfold toggleDetails. run_handler. split; [intros Hin; not_listed Hin|by intros (? & [=] & _)].
  - rewrite cancelUpload_run. split; [|by intros (? & [=] & _)].
    destruct (xhr s); simpl; intros Hin; not_listed Hin.
  - rewrite onprogress_run. split; [|by intros (? & [=] & _)].
    destruct lc; simpl; intros Hin; not_listed Hin.
  - rewrite onload_run. split; [|by intros (? & [=] & _)].
    destruct (is_2xx st); cbn [snd]; [|intros Hin; not_listed Hin].
    destruct txt as [json|]; cbn [snd]; [|intros Hin; not_listed Hin].
    cbv zeta. destruct (decide _); cbn [snd]; [intros Hin; not_listed Hin|].
    destruct (loading s); intros Hin; not_listed Hin.
  - rewrite onerror_run. split; [intros Hin; not_listed Hin|by intros (? & [=] & _)].
  - rewrite poll_run. split; [|by intros (? & [=] & _)]. simpl.
    destruct (_ && _); intros Hin; not_listed Hin.
  - destruct out as [| |res].
    + rewrite poll_resume_Rejected. split; [|by intros (? & [=] & _)]. simpl.
      destruct (loading s); intros Hin; not_listed Hin.
    + rewrite poll_resume_NotOk. split; [|by intros (? & [=] & _)]. simpl.
      destruct (loading s); intros Hin; not_listed Hin.
    + rewrite poll_resume_Ok. split.
      * destruct (decide (ConvertResult.status res = "done")) as [Hd|Hd]; cbn [snd].
        -- intros Hin. listed Hin. destruct Hin as [[= ->]|[]]. eauto.
        -- destruct (decide _); cbn [snd]; intros Hin; not_listed Hin.
      * intros (j & [= -> ->] & Hd). rewrite decide_True by done. cbn [snd].
        apply list_elem_of_here.
Qed.

(** The loading state begins with an accepted submission only: if an event
    takes the component from not loading to loading, the event is a
    submission of a file whose name ends in [.dwg]. *)
(** The component was not loading and is not loading. *)
Ltac stays_idle :=
  let Ht := fresh in intros Ht; simpl in Ht; congruence.

Theorem loading_starts_on_submit (w : World.t) (ev : Event) (w' : World.t) :
  step w ev = Some w' →
  loading (ui w) = false →
  loading (ui w') = true →
  ev = EvSubmit ∧ ∃ f, file (ui w) = Some f ∧ ends_in_dwg (name f).
Proof.
  intros [-> _]%step_Some. set (s := ui w). clearbody s. intros Hl.
  destruct ev as [picked| | | |id lc loaded total|id st txt|id|j' ms|j' out];
    cbn [handler]; unfold exec.
  - unfold onFileChange. run_handler. stays_idle.
  - rewrite onSubmit_run. destruct (file s) as [fl|] eqn:Hf; [|stays_idle].
    destruct (Js.endsWith _ _) eqn:He; [|stays_idle].
    intros _. split; [done|]. exists fl. split; [done|]. by apply endsWith_dwg.
  - unfold toggleDetails. run_handler. stays_idle.
  - rewrite cancelUpload_run. stays_idle.
  - rewrite onprogress_run. destruct lc; stays_idle.
  - rewrite onload_run.
    destruct (is_2xx st); cbn [fst snd]; [|stays_idle].
    destruct txt as [json|]; cbn [fst snd]; [|stays_idle].
    cbv zeta. destruct (decide _); cbn [fst snd]; [stays_idle|].
    destruct (handed_over_frame (ConvertResult.job_id (body json)) s) as (-> & _).
    stays_idle.
  - rewrite onerror_run. stays_idle.
  - rewrite poll_run. stays_idle.
  - destruct out as [| |res].
    + rewrite poll_resume_Rejected. stays_idle.
    + rewrite poll_resume_NotOk. stays_idle.
    + rewrite poll_resume_Ok. destruct (taken_in_frame res s) as (Ht & _).
      repeat case_decide; stays_idle.
Qed.

Lemma loading_starts_on_submit_witness :
  EvSubmit = EvSubmit ∧
  ∃ f, file (ui (page_with (Some plan))) = Some f ∧ ends_in_dwg (name f).
Proof.
  apply (loading_starts_on_submit (page_with (Some plan)) EvSubmit page_uploading).
  - vm_compute. reflexivity.
  - reflexivity.
  - reflexivity.
Defined.

Lemma length_remove_first `{EqDecision A} (x : A) (l : list A) :
  x ∈ l → Datatypes.S (length (remove_first x l)) = length l.
Proof.
  induction l as [|y l IH]; simpl.
  - by intros ?%elem_of_nil.
  - destruct (decide (x = y)) as [->|Hne]; [done|].
    intros [?|Hin]%elem_of_cons; [done|]. simpl. by rewrite IH.
Qed.

(** Polls never multiply: an event leaves at most as many timers and status
    requests under way as there were, except the response that hands an
    upload over to polling, which adds at most one. *)
Theorem polls_never_multiply (w : World.t) (ev : Event) (w' : World.t) :
  step w ev = Some w' →
  (outstanding w' ≤ outstanding w + (if hands_over ev then 1 else 0))%nat.
Proof.
  unfold step, outstanding. destruct (enabled w ev) eqn:Hen; [|done].
  intros [= <-]. rewrite deliver_timers, deliver_fetches, !length_app.
  rewrite consume_ui. set (s := ui w).
  destruct ev as [picked| | | |id lc loaded total|id st txt|id|j' ms|j' out];
    cbn [handler consume hands_over timers fetches drop_upload drop_timer
         drop_fetch]; unfold effects.
  - unfold onFileChange. run_handler. lia.
  - rewrite onSubmit_run.
    destruct (file s); [destruct (Js.endsWith _ _)|]; simpl; lia.
  - unfold toggleDetails. run_handler. lia.
  - rewrite cancelUpload_run. destruct (xhr s); simpl; lia.
  - rewrite onprogress_run. destruct lc; simpl; lia.
  - rewrite onload_run. unfold accepts.
    destruct (is_2xx st); cbn [snd andb]; [|destruct txt; simpl; lia].
    destruct txt as [json|]; cbn [snd]; [|simpl; lia].
    cbv zeta. destruct (decide _) as [He|He]; cbn [snd].
    + simpl. lia.
    + rewrite bool_decide_true by done. destruct (loading s); simpl; lia.
  - rewrite onerror_run. simpl. lia.
  - apply bool_decide_eq_true in Hen.
    pose proof (length_remove_first _ _ Hen).
    rewrite poll_run. simpl. destruct (_ && _); simpl; lia.
  - apply bool_decide_eq_true in Hen.
    pose proof (length_remove_first _ _ Hen).
    destruct out as [| |res].
    + rewrite poll_resume_Rejected. destruct (loading s); simpl; lia.
    + rewrite poll_resume_NotOk. destruct (loading s); simpl; lia.
    + rewrite poll_resume_Ok. repeat case_decide; simpl; lia.
Qed.

Lemma polls_never_multiply_witness :
  (outstanding page_polling ≤ outstanding page_timer_set + 0)%nat.
Proof.
  apply (polls_never_multiply page_timer_set (EvTimer "job-1" 1000) page_polling).
  vm_compute. reflexivity.
Defined.

(** *** What the parent shows *)

Lemma relay_error (p : ErrPayload) (a : App.State) :
  App.banner_shown (exec (App.relay_all [EmitError p]) a) = visible p ∧
  App.result (exec (App.relay_all [EmitError p]) a) = None.
Proof. by destruct p. Qed.

Lemma or_str_nonempty x d : d ≠ "" → Js.or_str x d ≠ "".
Proof.
  intros Hd. unfold Js.or_str. destruct x as [t|]; [|done].
  by destruct (decide (t = "")).
Qed.

Lemma failure_text_visible err msg :
  msg ≠ "" → visible (failure_text err msg) = true.
Proof.
  intros Hm. unfold failure_text.
  destruct (detail err) as [[t|m]|]; simpl.
  - destruct (decide (t = "")); simpl; apply bool_decide_eq_true;
      [by apply or_str_nonempty|done].
  - destruct (Js.truthy m); simpl; [|done].
    apply bool_decide_eq_true. by apply or_str_nonempty.
  - apply bool_decide_eq_true. by apply or_str_nonempty.
Qed.

(** A submission of a file whose name ends in [.dwg] is taken: the modal
    opens with progress 0 and the log ["开始上传..."], the upload is sent as
    the request that [xhr] then holds, and the empty error emitted first
    hides the banner of the parent and clears the result it showed.  In
    general [onSubmit] sends an upload exactly for such a file. *)
Theorem onSubmit_accepts_dwg (s : State) (id : nat) (f : File) (a : App.State) :
  file s = Some f →
  ends_in_dwg (name f) →
  onSubmit id s = (tt, submitted id s, [EmitError (ErrText ""); XhrSend id f]) ∧
  App.banner_shown (exec (App.relay_all (effects (onSubmit id) s)) a) = false ∧
  App.result (exec (App.relay_all (effects (onSubmit id) s)) a) = None ∧
  (∀ s' id' f',
     XhrSend id' f' ∈ effects (onSubmit id) s' ↔
     id' = id ∧ file s' = Some f' ∧ ends_in_dwg (name f')).
Proof.
  intros Hf Hn%endsWith_dwg.
  assert (onSubmit id s = (tt, submitted id s, [EmitError (ErrText ""); XhrSend id f]))
    as Hrun by by rewrite onSubmit_run, Hf, Hn.
  split_and!; [done|unfold effects; by rewrite Hrun..|].
  intros s' id' f'. unfold effects. rewrite onSubmit_run, <- endsWith_dwg.
  destruct (file s') as [fl|];
    [destruct (Js.endsWith (Js.toLowerCase (name fl)) ".dwg") eqn:He|]; simpl;
    rewrite ?elem_of_cons, elem_of_nil.
  - split; [intros [[=]|[[= -> ->]|[]]]; done|].
    intros (-> & [= ->] & _). right. by left.
  - split; [intros [[=]|[]]|]. intros (_ & [= ->] & Hn'). congruence.
  - split; [intros [[=]|[]]|]. by intros (_ & [=] & _).
Qed.

Lemma onSubmit_accepts_dwg_witness :
  onSubmit 0 (ui (page_with (Some plan)))
    = (tt, ui page_uploading, [EmitError (ErrText ""); XhrSend 0 plan]).
Proof.
  apply (onSubmit_accepts_dwg (ui (page_with (Some plan))) 0 plan App.init).
  - reflexivity.
  - apply endsWith_dwg. vm_compute. reflexivity.
Defined.

(** An upload that is not handed over to polling ends for the user with an
    error that shows: on every response that is not a 2xx with a parsed body
    other than an error body, [onload] clears [xhr], ends the loading state
    and emits one error, which is a text that is not empty or an object; the
    parent then shows its banner and no result.  [onerror] does the same
    with its fixed text. *)
Theorem upload_failure_is_shown (s : State) (status : Z)
    (responseText : option ResponseJson) (a : App.State) :
  accepts status responseText = false →
  (∃ p, onload status responseText s
          = (tt, set_loading false (set_xhr None s), [EmitError p]) ∧
        visible p = true) ∧
  App.banner_shown (exec (App.relay_all (effects (onload status responseText) s)) a)
    = true ∧
  App.result (exec (App.relay_all (effects (onload status responseText) s)) a) = None ∧
  onerror s = (tt, set_loading false (set_xhr None s), [EmitError (ErrText "网络错误")]) ∧
  App.banner_shown (exec (App.relay_all (effects onerror s)) a) = true.
Proof.
  intros Hacc.
  assert (∃ p, onload status responseText s
                 = (tt, set_loading false (set_xhr None s), [EmitError p]) ∧
               visible p = true) as (p & Hrun & Hp).
  { rewrite onload_run. unfold accepts in Hacc.
    destruct (is_2xx status); simpl in Hacc.
    - destruct responseText as [json|]; [|by eexists].
      apply bool_decide_eq_false in Hacc. cbv zeta.
      destruct (decide _) as [He|He]; [|by destruct Hacc].
      eexists. split; [done|]. simpl. apply bool_decide_eq_true.
      by apply or_str_nonempty.
    - eexists. split; [done|].
      destruct responseText as [err|]; [by apply failure_text_visible|done]. }
  split_and!.
  - eauto.
  - unfold effects at 1. rewrite Hrun. cbn [snd].
    destruct (relay_error p a) as [-> _]. done.
  - unfold effects at 1. rewrite Hrun. cbn [snd].
    by destruct (relay_error p a) as [_ ->].
  - apply onerror_run.
  - unfold effects. by rewrite onerror_run.
Qed.

Lemma upload_failure_is_shown_witness :
  App.banner_shown
    (exec (App.relay_all (effects (onload 500 None) (ui page_uploading))) App.init)
  = true.
Proof.
  apply (upload_failure_is_shown (ui page_uploading) 500 None App.init).
  reflexivity.
Defined.

End PageFacts.

(** ** What holds on every page that can be reached *)

Module PageInvariants.
Import Uploader World UploaderSpec UploaderScenes PageSpec PageScenes.
Import PollingFacts WorldFacts UploadFacts UploaderFacts LogFacts PageFacts.

Lemma page_logs_distinct_witness : adjacent_distinct (logs (ui page_polling)).
Proof.
  apply (page_logs_distinct
           [EvFileChange (Some plan); EvSubmit;
            EvUploadLoad 0 201 (Some {| body := queued; detail := None |});
            EvFetchDone "job-1" (Ok queued); EvTimer "job-1" 1000]
           page_polling).
  vm_compute. reflexivity.
Defined.

(** *** No empty entry in the log *)

Lemma addLog_no_empty s m :
  "" ∉ logs s → "" ∉ logs (exec (addLog m) s).
Proof.
  intros Hs.
  destruct (decide (m = "")) as [->|Hm].
  { unfold exec. by rewrite addLog_skip by auto. }
  destruct (decide (last (logs s) = Some m)) as [Hl|Hl].
  { unfold exec. by rewrite addLog_skip by auto. }
  unfold exec. rewrite addLog_push by done. simpl.
  rewrite elem_of_app, elem_of_cons, elem_of_nil. intuition congruence.
Qed.

Lemma handler_logs_no_empty w ev :
  "" ∉ logs (ui w) → "" ∉ logs (exec (handler w ev) (ui w)).
Proof.
  intros Hl. set (s := ui w) in *. clearbody s.
  destruct ev as [picked| | | |id lc loaded total|id st txt|id|j ms|j out];
    cbn [handler]; unfold exec.
  - unfold onFileChange. by run_handler.
  - rewrite onSubmit_run.
    destruct (file s); [destruct (Js.endsWith _ _)|]; simpl; [|done..].
    rewrite elem_of_cons, elem_of_nil. intuition congruence.
  - unfold toggleDetails. by run_handler.
  - rewrite cancelUpload_run. simpl. apply not_elem_of_nil.
  - rewrite onprogress_run. by destruct lc.
  - rewrite onload_run.
    destruct (is_2xx st); [|done].
    destruct txt as [json|]; [|done]. cbv zeta.
    destruct (decide _); [done|].
    simpl. by apply addLog_no_empty.
  - by rewrite onerror_run.
  - by rewrite poll_run.
  - destruct out as [| |res].
    + by rewrite poll_resume_Rejected.
    + by rewrite poll_resume_NotOk.
    + rewrite poll_resume_Ok.
      assert ("" ∉ logs (taken_in res s)) as Ht by by apply addLog_no_empty.
      by repeat case_decide.
Qed.

(** On the page, whatever happens, the log holds no empty entry: [addLog]
    drops the empty message and every text the component logs itself is not
    empty. *)
Theorem page_logs_no_empty (evs : list Event) (w : World.t) :
  run World.init evs = Some w → "" ∉ logs (ui w).
Proof.
  assert (∀ w0, "" ∉ logs (ui w0) → run w0 evs = Some w → "" ∉ logs (ui w)) as Hgen.
  { induction evs as [|ev evs IH]; intros w0 H0; simpl.
    - by intros [= <-].
    - destruct (step w0 ev) as [w1|] eqn:Hstep; [|done].
      apply IH. apply step_Some in Hstep as [-> _].
      by apply handler_logs_no_empty. }
  apply Hgen. apply not_elem_of_nil.
Qed.

Lemma page_logs_no_empty_witness : "" ∉ logs (ui page_timer_set).
Proof.
  apply (page_logs_no_empty to_timer_set page_timer_set).
  vm_compute. reflexivity.
Defined.

(** *** The upload that [xhr] holds *)

Lemma absorb_uploads w es :
  uploads (foldl absorb w es) = uploads_after (uploads w) es ∧
  fresh (foldl absorb w es) = fresh_after (fresh w) es.
Proof.
  revert w. induction es as [|e es IH]; intros w; simpl; [done|].
  destruct (IH (absorb w e)) as [-> ->]. by destruct e.
Qed.

Lemma deliver_uploads h w :
  uploads (deliver h w) = uploads_after (uploads w) (effects h (ui w)) ∧
  fresh (deliver h w) = fresh_after (fresh w) (effects h (ui w)).
Proof.
  unfold deliver.
  match goal with
  | |- context [foldl absorb ?w0 ?es] => exact (absorb_uploads w0 es)
  end.
Qed.

Lemma remove_first_subseteq `{EqDecision A} (x y : A) (l : list A) :
  y ∈ remove_first x l → y ∈ l.
Proof.
  induction l as [|z l IH]; simpl; [done|].
  destruct (decide (x = z)); rewrite !elem_of_cons; intuition.
Qed.

Lemma remove_first_NoDup `{EqDecision A} (x : A) (l : list A) :
  NoDup l → NoDup (remove_first x l) ∧ x ∉ remove_first x l.
Proof.
  induction 1 as [|z l Hz Hl IH]; simpl.
  - split; [constructor|apply not_elem_of_nil].
  - destruct (decide (x = z)) as [->|Hne]; [done|].
    destruct IH as [IH1 IH2]. split.
    + constructor; [|done]. intros Hin. by apply Hz, (remove_first_subseteq x).
    + rewrite elem_of_cons. intuition.
Qed.

Lemma tidy_drop_upload w id :
  tidy_uploads w →
  NoDup (remove_first id (uploads w)) ∧
  (∀ id', id' ∈ remove_first id (uploads w) → (id' < fresh w)%nat).
Proof.
  intros (Hnd & Hlt & _). split; [by apply remove_first_NoDup|].
  intros id' Hin. by apply Hlt, (remove_first_subseteq id).
Qed.

(** Every event keeps the uploads tidy. *)
Lemma tidy_step w ev w' :
  tidy_uploads w → step w ev = Some w' → tidy_uploads w'.
Proof.
  intros Hw. unfold step. destruct (enabled w ev); [|done]. intros [= <-].
  unfold tidy_uploads.
  destruct (deliver_uploads (handler w ev) (consume w ev)) as [-> ->].
  rewrite deliver_ui, consume_ui.
  pose proof Hw as (Hnd & Hlt & Hx). set (s := ui w) in *.
  assert (∀ s', xhr s' = xhr s →
            NoDup (uploads w) ∧
            (∀ id, id ∈ uploads w → (id < fresh w)%nat) ∧
            (∀ id, xhr s' = Some id → id ∈ uploads w)) as Hsame.
  { intros s' ->. done. }
  destruct ev as [picked| | | |id lc loaded total|id st txt|id|j ms|j out];
    cbn [handler consume uploads fresh drop_upload drop_timer drop_fetch];
    unfold exec, effects.
  - unfold onFileChange. run_handler. by apply Hsame.
  - rewrite onSubmit_run.
    destruct (file s); [destruct (Js.endsWith _ _)|]; simpl; [|by apply Hsame..].
    split_and!.
    + apply NoDup_app. split_and!; [done| |apply NoDup_singleton].
      intros id Hin ->%list_elem_of_singleton. apply Hlt in Hin. lia.
    + intros id [Hin| ->%list_elem_of_singleton]%elem_of_app; [|lia].
      apply Hlt in Hin. lia.
    + intros id [= <-]. rewrite elem_of_app, list_elem_of_singleton. by right.
  - unfold toggleDetails. run_handler. by apply Hsame.
  - rewrite cancelUpload_run.
    destruct (xhr s) as [id|]; simpl.
    + destruct (tidy_drop_upload w id Hw) as [H1 H2]. by split_and!.
    + by split_and!.
  - rewrite onprogress_run. destruct lc; simpl; by apply Hsame.
  - destruct (tidy_drop_upload w id Hw) as [H1 H2].
    rewrite onload_run.
    destruct (is_2xx st); [|by split_and!].
    destruct txt as [json|]; [|by split_and!]. cbv zeta.
    destruct (decide _); [by split_and!|].
    destruct (handed_over_frame (ConvertResult.job_id (body json)) s)
      as (_ & _ & _ & Hxn).
    cbn [fst snd]. rewrite Hxn.
    destruct (loading s); simpl; by split_and!.
  - destruct (tidy_drop_upload w id Hw) as [H1 H2].
    rewrite onerror_run. by split_and!.
  - rewrite poll_run. cbn [fst snd]. destruct (_ && _); simpl; by apply Hsame.
  - destruct out as [| |res].
    + rewrite poll_resume_Rejected. destruct (loading s); simpl; by apply Hsame.
    + rewrite poll_resume_NotOk. destruct (loading s); simpl; by apply Hsame.
    + rewrite poll_resume_Ok.
      destruct (taken_in_frame res s) as (_ & _ & Hxt & _).
      repeat case_decide; simpl; apply Hsame; simpl; by rewrite ?Hxt.
Qed.

Lemma tidy_run evs : ∀ w w',
  tidy_uploads w → run w evs = Some w' → tidy_uploads w'.
Proof.
  induction evs as [|ev evs IH]; intros w w' Hw; simpl.
  - by intros [= <-].
  - destruct (step w ev) as [w1|] eqn:Hstep; [|done].
    apply IH. by apply (tidy_step w ev).
Qed.

Lemma tidy_init : tidy_uploads World.init.
Proof.
  split_and!; [constructor|by intros id ?%elem_of_nil|done].
Qed.

(** On every page that can be reached, the request that [xhr] holds is an
    upload still in flight, so [cancelUpload] aborts a live upload; and once
    it has, that upload delivers nothing more: no progress, no response and
    no error of it can reach the component. *)
Theorem aborted_upload_is_silent (evs : list Event) (w : World.t) (id : nat)
    (status : Z) (responseText : option ResponseJson)
    (lc : bool) (loaded total : Z) :
  run World.init evs = Some w →
  xhr (ui w) = Some id →
  id ∈ uploads w ∧
  (id ∉ uploads (deliver cancelUpload w)) ∧
  step (deliver cancelUpload w) (EvUploadLoad id status responseText) = None ∧
  step (deliver cancelUpload w) (EvUploadProgress id lc loaded total) = None ∧
  step (deliver cancelUpload w) (EvUploadError id) = None.
Proof.
  intros Hrun Hx.
  pose proof (tidy_run evs _ _ tidy_init Hrun) as (Hnd & _ & Hin).
  assert (id ∉ uploads (deliver cancelUpload w)) as Hout.
  { destruct (deliver_uploads cancelUpload w) as [-> _].
    unfold effects. rewrite cancelUpload_run, Hx. simpl.
    by apply remove_first_NoDup. }
  split_and!; [by apply Hin|done|..];
    unfold step, enabled; by rewrite bool_decide_false.
Qed.

Lemma aborted_upload_is_silent_witness :
  step (deliver cancelUpload page_uploading)
    (EvUploadLoad 0 201 (Some (accepted "job-1"))) = None.
Proof.
  apply (aborted_upload_is_silent to_uploading page_uploading 0
           201 (Some (accepted "job-1")) true 0 0).
  - vm_compute. reflexivity.
  - reflexivity.
Defined.

End PageInvariants.

(** * More properties of the map component *)

Module MapMoreFacts.
Import MapView MapTemplate MapSpec MapScenes MapMoreSpec MapMoreScenes.
Import MapFacts MapClaims.

(** *** Without a map *)

(** Without a map the component calls nothing on MapLibre: whatever it is
    asked to do, short of being mounted, the map stays absent and none of
    its effects is a call on the map. *)
Theorem no_map_no_call (s : State) (ev : Event) :
  map s = None →
  (∀ container, ev ≠ EvMounted container) →
  map (exec (handler ev) s) = None ∧
  ∀ e, e ∈ effects (handler ev) s → map_call e = false.
Proof.
  intros Hm Hev.
  assert (∀ es : list Effect,
            Forall (λ e, map_call e = false) es →
            ∀ e, e ∈ es → map_call e = false) as Hall.
  { intros es Hes e He. by eapply Forall_forall in Hes. }
  destruct ev as [c| |nv|nv out|n|c| |]; cbn [handler].
  - by destruct (Hev c).
  - unfold onUnmounted, skip. run_handler. rewrite Hm. simpl.
    split; [done|]. by intros e ?%elem_of_nil.
  - unfold onResult, watch_result, skip. run_handler. rewrite Hm. simpl.
    split; [done|]. by intros e ?%elem_of_nil.
  - unfold watch_resume, watch_finish, renderMapLayers, skip.
    destruct out as [| |data]; run_handler; rewrite ?Hm; simpl;
      (destruct (ConvertResult.bbox nv) as [bb|];
       [destruct (valid_bounds bb)|]); run_handler; rewrite ?Hm; simpl;
      (split; [done|]); apply Hall; repeat constructor.
  - unfold toggleLayer, updateMapFilters, skip. run_handler. rewrite Hm. simpl.
    split; [done|]. by intros e ?%elem_of_nil.
  - unfold toggleAllLayers, updateMapFilters, skip. run_handler. rewrite Hm. simpl.
    split; [done|]. by intros e ?%elem_of_nil.
  - unfold toggleMode, renderMapLayers, skip. run_handler. rewrite Hm. simpl.
    split; [done|]. by intros e ?%elem_of_nil.
  - unfold resetView, skip. run_handler. rewrite Hm. simpl.
    split; [done|]. by intros e ?%elem_of_nil.
Qed.

Lemma no_map_no_call_witness :
  map (exec (handler (EvLayersDone (done_with box_ok) (LayersOk (Names ["0"]))))
         unmounted) = None ∧
  ∀ e, e ∈ effects (handler (EvLayersDone (done_with box_ok) (LayersOk (Names ["0"]))))
             unmounted →
       map_call e = false.
Proof.
  apply (no_map_no_call unmounted
           (EvLayersDone (done_with box_ok) (LayersOk (Names ["0"])))).
  - reflexivity.
  - discriminate.
Defined.

(** *** The boxes of the sidebar *)

Lemma size_list_to_set_le (l : list string) :
  (size (list_to_set l : gset string) ≤ length l)%nat.
Proof.
  induction l as [|x l IH].
  { rewrite list_to_set_nil, size_empty. done. }
  rewrite list_to_set_cons. cbn [length].
  rewrite size_union_alt.
  rewrite size_singleton.
  assert (size (list_to_set l ∖ {[x]} : gset string) ≤ size (list_to_set l : gset string))%nat
    by (apply subseteq_size; set_unfold; tauto).
  lia.
Qed.

Lemma size_list_to_set_NoDup (l : list string) :
  size (list_to_set l : gset string) = length l ↔ NoDup l.
Proof.
  split; [|apply size_list_to_set].
  induction l as [|x l IH]; [constructor|].
  rewrite list_to_set_cons. cbn [length]. intros Hsize.
  destruct (decide (x ∈ l)) as [Hin|Hout].
  - exfalso.
    assert ({[x]} ∪ list_to_set l = (list_to_set l : gset string)) as Heq.
    { apply set_eq. intros y. set_unfold. split; [|tauto].
      intros [->|?]; done. }
    rewrite Heq in Hsize. pose proof (size_list_to_set_le l). lia.
  - constructor; [done|]. apply IH.
    rewrite size_union in Hsize by (set_unfold; intros y -> ?; done).
    rewrite size_singleton in Hsize. lia.
Qed.

Lemma toggleAllLayers_frame s checked :
  layers (exec (toggleAllLayers checked) s) = layers s ∧
  selectedLayers (exec (toggleAllLayers checked) s)
    = if checked then list_to_set (name <$> layers s) else ∅.
Proof.
  unfold toggleAllLayers. rewrite exec_bind. cbv beta. rewrite exec_bind. cbv beta.
  match goal with
  | |- layers (exec updateMapFilters ?s1) = _ ∧ _ =>
      destruct (map_only_updateMapFilters s1) as (_ & Hl & Hs & _)
  end.
  split; [etrans; [exact Hl|]|etrans; [exact Hs|]]; by run_handler.
Qed.

(** [toggleAllLayers(checked)] selects every listed layer or none and keeps
    the list: the selection becomes the set of the listed names or the empty
    set.  In the render that follows, the expression bound to the box of
    each listed layer has the value [checked]; the expression bound to the
    box of all layers ([size === length]) is true after selecting all only if
    no two layers of the list have the same name, and false after clearing
    when a layer is listed.  These are the values of the bindings; what the
    boxes show on the screen is not part of the statement. *)
Theorem toggleAllLayers_selects_all_or_none (s : State) (checked : bool) (layer : Layer) :
  layer ∈ layers s →
  layers (exec (toggleAllLayers checked) s) = layers s ∧
  selectedLayers (exec (toggleAllLayers checked) s)
    = (if checked then list_to_set (name <$> layers s) else ∅) ∧
  layer_bound (exec (toggleAllLayers checked) s) layer = checked ∧
  (select_all_bound (exec (toggleAllLayers true) s) = true ↔
   NoDup (name <$> layers s)) ∧
  select_all_bound (exec (toggleAllLayers false) s) = false.
Proof.
  intros Hin. split_and!.
  - by destruct (toggleAllLayers_frame s checked) as [-> _].
  - by destruct (toggleAllLayers_frame s checked) as [_ ->].
  - unfold layer_bound.
    destruct (toggleAllLayers_frame s checked) as [_ ->].
    destruct checked.
    + apply bool_decide_eq_true. rewrite elem_of_list_to_set, list_elem_of_fmap.
      by exists layer.
    + apply bool_decide_eq_false. apply not_elem_of_empty.
  - unfold select_all_bound.
    destruct (toggleAllLayers_frame s true) as [-> ->].
    rewrite bool_decide_eq_true, <- size_list_to_set_NoDup.
    by rewrite length_fmap.
  - unfold select_all_bound.
    destruct (toggleAllLayers_frame s false) as [-> ->].
    apply bool_decide_eq_false. rewrite size_empty.
    destruct (layers s); [by apply elem_of_nil in Hin|done].
Qed.

Lemma toggleAllLayers_selects_all_or_none_witness :
  selectedLayers
    (exec (toggleAllLayers false)
       (exec (watch_resume (done_with box_ok) (LayersOk (Names ["0"; "walls"]))) mounted))
    = ∅.
Proof.
  apply (toggleAllLayers_selects_all_or_none
           (exec (watch_resume (done_with box_ok) (LayersOk (Names ["0"; "walls"]))) mounted)
           false {| name := "walls"; color := "#9ca3af" |}).
  destruct (watch_resume_layers mounted (done_with box_ok) (Names ["0"; "walls"]))
    as [-> _].
  simpl. apply list_elem_of_further, list_elem_of_here.
Defined.

(** *** The layers request that fails or finds nothing *)

(** A layers request that fails leaves the layer list and the selection of
    the job shown before; a body that is an empty array empties both, and
    the sidebar is then not shown. *)
Theorem layers_request_edge_cases (s : State) (nv : ConvertResult.t) :
  layers (exec (watch_resume nv LayersNotOk) s) = layers s ∧
  selectedLayers (exec (watch_resume nv LayersNotOk) s) = selectedLayers s ∧
  layers (exec (watch_resume nv LayersRejected) s) = layers s ∧
  selectedLayers (exec (watch_resume nv LayersRejected) s) = selectedLayers s ∧
  layers (exec (watch_resume nv (LayersOk (Names []))) s) = [] ∧
  selectedLayers (exec (watch_resume nv (LayersOk (Names []))) s) = ∅ ∧
  sidebar_shown (exec (watch_resume nv (LayersOk (Names []))) s) = false ∧
  layers (exec (watch_resume nv (LayersOk (Descriptors []))) s) = [] ∧
  selectedLayers (exec (watch_resume nv (LayersOk (Descriptors []))) s) = ∅ ∧
  sidebar_shown (exec (watch_resume nv (LayersOk (Descriptors []))) s) = false.
Proof.
  assert (∀ out s1, exec (match out with
                            | LayersOk data =>
                                modify (set_layers (normalize data));;
                                ls ← gets layers;
                                modify (set_selectedLayers (list_to_set (name <$> ls)))
                            | LayersNotOk => skip
                            | LayersRejected => tell ConsoleError
                            end) s = s1 →
            layers (exec (watch_resume nv out) s) = layers s1 ∧
            selectedLayers (exec (watch_resume nv out) s) = selectedLayers s1) as Hres.
  { intros out s1 <-. unfold watch_resume. rewrite exec_bind. cbv beta.
    apply watch_finish_frame. }
  destruct (Hres LayersNotOk s eq_refl) as [-> ->].
  destruct (Hres LayersRejected s eq_refl) as [-> ->].
  destruct (watch_resume_layers s nv (Names [])) as [H1 H2].
  destruct (watch_resume_layers s nv (Descriptors [])) as [H3 H4].
  unfold sidebar_shown. rewrite H1, H2, H3, H4. done.
Qed.

(** *** Boxes of any length *)

Lemma valid_bounds_any bbox :
  valid_bounds bbox = true ↔
  ∃ minX minY maxX maxY rest,
    bbox = minX :: minY :: maxX :: maxY :: rest ∧ usable minX minY maxX maxY.
Proof.
  split.
  - destruct bbox as [|a [|b [|c [|d rest]]]];
      unfold valid_bounds; simpl; rewrite ?andb_false_r; try done.
    intros H. exists a, b, c, d, rest. split; [done|].
    by apply valid_bounds_true.
  - intros (a & b & c & d & rest & -> & H%valid_bounds_true). exact H.
Qed.

(** A box needs four coordinates: [resetView] calls [fitBounds] exactly
    when the box of the result starts with four coordinates that pass the
    test, whatever follows them, and then with the whole box; a box of fewer
    than four coordinates is never fitted. *)
Theorem box_needs_four (s : State) (h : Maplibre) (res : ConvertResult.t)
    (bbox : list Js.number) :
  map s = Some h →
  result s = Some res →
  ConvertResult.bbox res = Some bbox →
  (∀ x, FitBounds x ∈ effects resetView s ↔
        x = bbox ∧
        ∃ minX minY maxX maxY rest,
          bbox = minX :: minY :: maxX :: maxY :: rest ∧
          usable minX minY maxX maxY) ∧
  ((length bbox < 4)%nat → effects resetView s = [ConsoleWarn]).
Proof.
  intros Hm Hr Hb. split.
  - intros x. rewrite <- valid_bounds_any. by apply (resetView_fit s h res).
  - intros Hlen. unfold resetView. run_handler. rewrite Hm, Hr. simpl. rewrite Hb.
    destruct (valid_bounds bbox) eqn:Hv; [|done].
    apply valid_bounds_any in Hv as (? & ? & ? & ? & ? & -> & _). simpl in Hlen. lia.
Qed.

Lemma box_needs_four_witness :
  effects resetView
    (set_result (Some (done_with [Js.Fin 0; Js.Fin 0; Js.Fin 1])) mounted)
  = [ConsoleWarn].
Proof.
  apply (box_needs_four
           (set_result (Some (done_with [Js.Fin 0; Js.Fin 0; Js.Fin 1])) mounted)
           {| style_layers := {["background"]}; style_sources := ∅ |}
           (done_with [Js.Fin 0; Js.Fin 0; Js.Fin 1])
           [Js.Fin 0; Js.Fin 0; Js.Fin 1]).
  - reflexivity.
  - reflexivity.
  - reflexivity.
  - simpl. lia.
Defined.

(** *** The filters and the selection *)

Lemma updateMapFilters_filters s id f :
  SetFilter id f ∈ effects updateMapFilters s ↔
  ∃ h, map s = Some h ∧ id ∈ style_layers h ∧
       (((id = "dwg-layer-fill" ∨ id = "dwg-layer-line") ∧
         f = LayerIn (selectedLayers s)) ∨
        (id = "dwg-layer-text" ∧ f = TextAndLayerIn (selectedLayers s))).
Proof.
  unfold updateMapFilters, getLayer, when, skip.
  destruct s as [r [h|] l sel mode o]; run_handler.
  - repeat (case_bool_decide; simpl); rewrite ?elem_of_cons, elem_of_nil; split;
      try (intros (h0 & [= <-] & Hin & [[[-> | ->] ->]|[-> ->]]); by auto);
      intros H'; repeat (destruct H' as [[= -> ->]|H']); try done;
      exists h; split_and!; auto.
  - rewrite elem_of_nil. split; [done|]. by intros (? & [=] & _).
Qed.

Lemma toggleLayer_effects s layerName :
  effects (toggleLayer layerName) s
  = effects updateMapFilters
      (set_selectedLayers (selectedLayers (exec (toggleLayer layerName) s)) s).
Proof.
  rewrite toggleLayer_selected.
  unfold toggleLayer. rewrite effects_bind. cbv beta. rewrite effects_bind. cbv beta.
  by run_handler.
Qed.

Lemma toggleAllLayers_effects s checked :
  effects (toggleAllLayers checked) s
  = effects updateMapFilters
      (set_selectedLayers (selectedLayers (exec (toggleAllLayers checked) s)) s).
Proof.
  destruct (toggleAllLayers_frame s checked) as [_ ->].
  unfold toggleAllLayers. rewrite effects_bind. cbv beta. rewrite effects_bind. cbv beta.
  by run_handler.
Qed.

(** The filters follow the boxes: every filter that [toggleLayer] or
    [toggleAllLayers] installs is on a drawing layer that the map has, and
    names exactly the layers selected after the call; the fill and the line
    layer get the plain filter and the text layer the one that also asks for
    a text.  With the three layers on the map all three filters are set. *)
Theorem filters_follow_selection (s : State) (h : Maplibre) (hd : Handler)
    (id : string) (f : Filter) :
  map s = Some h →
  (∃ layerName, hd = toggleLayer layerName) ∨ (∃ checked, hd = toggleAllLayers checked) →
  (SetFilter id f ∈ effects hd s ↔
   id ∈ style_layers h ∧
   (((id = "dwg-layer-fill" ∨ id = "dwg-layer-line") ∧
     f = LayerIn (selectedLayers (exec hd s))) ∨
    (id = "dwg-layer-text" ∧ f = TextAndLayerIn (selectedLayers (exec hd s))))) ∧
  ({[ "dwg-layer-fill"; "dwg-layer-line"; "dwg-layer-text" ]} ⊆ style_layers h →
   effects hd s
   = [SetFilter "dwg-layer-fill" (LayerIn (selectedLayers (exec hd s)));
      SetFilter "dwg-layer-line" (LayerIn (selectedLayers (exec hd s)));
      SetFilter "dwg-layer-text" (TextAndLayerIn (selectedLayers (exec hd s)))]).
Proof.
  intros Hm Hhd.
  assert (effects hd s
          = effects updateMapFilters (set_selectedLayers (selectedLayers (exec hd s)) s))
    as ->.
  { destruct Hhd as [[n ->]|[c ->]];
      [apply toggleLayer_effects|apply toggleAllLayers_effects]. }
  set (sel := selectedLayers (exec hd s)). clearbody sel. split.
  - rewrite updateMapFilters_filters. simpl. rewrite Hm. split.
    + by intros (h0 & [= <-] & ?).
    + intros ?. by exists h.
  - intros Hsub. unfold updateMapFilters, getLayer, when, skip.
    destruct s as [r m l sel0 mode o]. simpl in Hm. subst m. run_handler.
    repeat (rewrite bool_decide_true by (apply Hsub; set_unfold; tauto); simpl).
    done.
Qed.

Lemma filters_follow_selection_witness :
  effects (toggleLayer "walls") showing
  = [SetFilter "dwg-layer-fill" (LayerIn {["walls"]});
     SetFilter "dwg-layer-line" (LayerIn {["walls"]});
     SetFilter "dwg-layer-text" (TextAndLayerIn {["walls"]})].
Proof.
  destruct (filters_follow_selection showing
              {| style_layers := {["background"; "dwg-layer-fill"; "dwg-layer-line";
                                   "dwg-layer-text"]};
                 style_sources := {["dwg-source"]} |}
              (toggleLayer "walls") "dwg-layer-fill" (LayerIn {["walls"]}))
    as [_ Hall].
  - vm_compute. f_equal.
  - left. by exists "walls".
  - rewrite Hall; [|set_unfold; tauto].
    rewrite toggleLayer_selected. reflexivity.
Defined.

(** *** What [renderMapLayers] leaves on the map *)

Lemma exec_gets {A B} (g : State → A) (k : A → Act State Effect B) s :
  exec (gets g ≫= k) s = exec (k (g s)) s.
Proof. by rewrite exec_bind. Qed.

Lemma exec_tell_seq {B} (e : Effect) (k : Act State Effect B) s :
  exec (tell e ;; k) s = exec k s.
Proof. by rewrite exec_bind. Qed.

Lemma exec_dropLayer s id :
  exec (dropLayer id) s = on_map (without_layer id) s.
Proof.
  unfold dropLayer, getLayer, when, removeLayer, skip.
  destruct s as [r [h|] l sel mode o]; run_handler; [|done].
  case_bool_decide; simpl; [done|].
  unfold on_map, set_map. simpl. do 2 f_equal.
  destruct h as [L S]. unfold without_layer. simpl in *. f_equal.
  apply set_eq. intros x. set_unfold. split; [|tauto]. intros Hx. split; [done|].
  by intros ->.
Qed.

Lemma exec_dropSource {B} id (k : unit → Act State Effect B) s :
  exec (getSource id ≫= λ has_source, when has_source (removeSource id) ≫= k) s
  = exec (k tt) (on_map (without_source id) s).
Proof.
  rewrite exec_bind. cbv beta. rewrite exec_bind.
  f_equal; [match goal with |- k ?u = _ => by destruct u end|].
  unfold getSource, when, removeSource, skip.
  destruct s as [r [h|] l sel mode o]; run_handler; [|done].
  case_bool_decide; simpl; [done|].
  unfold on_map, set_map. simpl. do 2 f_equal.
  destruct h as [L S]. unfold without_source. simpl in *. f_equal.
  apply set_eq. intros x. set_unfold. split; [|tauto]. intros Hx. split; [done|].
  by intros ->.
Qed.

Lemma exec_updateMapFilters s : exec updateMapFilters s = s.
Proof.
  unfold updateMapFilters, getLayer, when, skip.
  destruct s as [r [h|] l sel mode o]; run_handler; [|done].
  by repeat (case_bool_decide; simpl).
Qed.

Lemma exec_addSource {B} id kind url (k : Act State Effect B) s :
  exec (addSource id kind url ;; k) s = exec k (on_map (with_source id) s).
Proof. by rewrite exec_bind. Qed.

Lemma exec_addLayer {B} id sl (k : Act State Effect B) s :
  exec (addLayer id sl ;; k) s = exec k (on_map (with_layer id) s).
Proof. by rewrite exec_bind. Qed.

Lemma renderMapLayers_exec s h res :
  map s = Some h → result s = Some res →
  exec renderMapLayers s = set_map (Some (rendered (mapMode s) res h)) s.
Proof.
  intros Hm Hr. unfold renderMapLayers.
  rewrite !exec_gets, Hm, Hr.
  do 4 (rewrite exec_bind, exec_dropLayer; cbv beta).
  rewrite exec_dropSource, !exec_gets.
  destruct s as [r m l sel mode o]. simpl in Hm, Hr. subst m r.
  unfold rendered. cbn [mapMode on_map set_map].
  destruct mode.
  - destruct (Js.truthy (ConvertResult.mvt_url res)); [|done].
    rewrite exec_tell_seq, exec_addSource, !exec_addLayer, exec_updateMapFilters.
    done.
  - destruct (Js.truthy (ConvertResult.raster_url res)); [|done].
    by rewrite exec_addSource.
Qed.

(** [renderMapLayers] replaces what it drew and touches nothing else: with a
    map and a result, every layer that is not one of its four stays or stays
    away as it was, the raster layer is on the map exactly in raster mode
    with a raster url, the fill, line and text layers exactly in vector mode
    with a tile url, and the source exactly in either case.  So raster mode
    for a result without a raster url leaves no layer of the drawing. *)
Theorem renderMapLayers_redraws (s : State) (h : Maplibre) (res : ConvertResult.t) :
  map s = Some h →
  result s = Some res →
  ∃ h', map (exec renderMapLayers s) = Some h' ∧
    (∀ id, id ∉ dwg_layers → (id ∈ style_layers h' ↔ id ∈ style_layers h)) ∧
    ("dwg-layer-raster" ∈ style_layers h' ↔
     mapMode s = raster ∧ Js.truthy (ConvertResult.raster_url res) = true) ∧
    (∀ id, id ∈ ({[ "dwg-layer-fill"; "dwg-layer-line"; "dwg-layer-text" ]} : gset string) →
       (id ∈ style_layers h' ↔
        mapMode s = vector ∧ Js.truthy (ConvertResult.mvt_url res) = true)) ∧
    ("dwg-source" ∈ style_sources h' ↔
     (mapMode s = raster ∧ Js.truthy (ConvertResult.raster_url res) = true) ∨
     (mapMode s = vector ∧ Js.truthy (ConvertResult.mvt_url res) = true)) ∧
    mapMode (exec renderMapLayers s) = mapMode s ∧
    layers (exec renderMapLayers s) = layers s ∧
    selectedLayers (exec renderMapLayers s) = selectedLayers s.
Proof.
  intros Hm Hr. exists (rendered (mapMode s) res h).
  rewrite (renderMapLayers_exec s h res Hm Hr). cbn [map mapMode layers selectedLayers set_map].
  split; [done|].
  unfold rendered, cleared, dwg_layers.
  destruct (mapMode s);
    [destruct (Js.truthy (ConvertResult.mvt_url res))
    |destruct (Js.truthy (ConvertResult.raster_url res))];
    cbn [style_layers style_sources with_layer with_source without_layer
         without_source];
    (split_and!; [| | | |done..]); set_unfold;
    intuition (try congruence; try discriminate).
Qed.

Lemma renderMapLayers_redraws_witness :
  ∃ h', map (exec renderMapLayers (set_result (Some (done_with box_ok)) mounted))
        = Some h' ∧
        "background" ∈ style_layers h' ∧ "dwg-layer-fill" ∈ style_layers h'.
Proof.
  destruct (renderMapLayers_redraws (set_result (Some (done_with box_ok)) mounted)
              {| style_layers := {["background"]}; style_sources := ∅ |}
              (done_with box_ok))
    as (h' & Hh' & Hother & _ & Hvec & _).
  - reflexivity.
  - reflexivity.
  - exists h'. split; [exact Hh'|]. split.
    + apply Hother; [|set_unfold; tauto].
      unfold dwg_layers. set_unfold. intuition discriminate.
    + apply Hvec; [set_unfold; tauto|]. split; reflexivity.
Defined.

(** Two changes of the mode show what a fresh rendering shows: with a map
    and a result, [toggleMode] twice gives back the mode, and leaves the map
    as [renderMapLayers] alone would. *)
Theorem toggleMode_twice (s : State) (h : Maplibre) (res : ConvertResult.t) :
  map s = Some h →
  result s = Some res →
  mapMode (exec toggleMode s) = other_mode (mapMode s) ∧
  mapMode (exec toggleMode (exec toggleMode s)) = mapMode s ∧
  map (exec toggleMode (exec toggleMode s)) = map (exec renderMapLayers s).
Proof.
  intros Hm Hr.
  assert (∀ s0 h0, map s0 = Some h0 → result s0 = Some res →
            exec toggleMode s0
            = set_map (Some (rendered (other_mode (mapMode s0)) res h0))
                (set_mapMode (other_mode (mapMode s0)) s0)) as Htoggle.
  { intros s0 h0 Hm0 Hr0. unfold toggleMode.
    rewrite exec_gets, exec_bind. cbv beta.
    change (exec (modify (set_mapMode ?m)) s0) with (set_mapMode m s0).
    by rewrite (renderMapLayers_exec _ h0 res). }
  rewrite (Htoggle s h Hm Hr).
  rewrite (Htoggle _ (rendered (other_mode (mapMode s)) res h)) by done.
  rewrite (renderMapLayers_exec s h res Hm Hr).
  cbn [map mapMode set_map set_mapMode].
  split; [done|]. split; [by destruct (mapMode s)|]. f_equal.
  assert (other_mode (other_mode (mapMode s)) = mapMode s) as ->
    by by destruct (mapMode s).
  destruct h as [L S]. unfold rendered, cleared.
  destruct (mapMode s); cbn [other_mode];
    destruct (Js.truthy (ConvertResult.mvt_url res));
    destruct (Js.truthy (ConvertResult.raster_url res));
    unfold with_layer, with_source, without_layer, without_source;
    cbn [style_layers style_sources]; f_equal;
    apply set_eq; intros x; set_unfold; intuition congruence.
Qed.

Lemma toggleMode_twice_witness :
  mapMode (exec toggleMode showing) = raster ∧
  mapMode (exec toggleMode (exec toggleMode showing)) = vector ∧
  map (exec toggleMode (exec toggleMode showing)) = map (exec renderMapLayers showing).
Proof.
  apply (toggleMode_twice showing
           {| style_layers := {["background"; "dwg-layer-fill"; "dwg-layer-line";
                                "dwg-layer-text"]};
              style_sources := {["dwg-source"]} |}
           (done_with box_ok)).
  - vm_compute. f_equal.
  - reflexivity.
Defined.

End MapMoreFacts.

(** * Properties of the page around the two components *)

Module AppFacts.
Import Uploader World UploaderSpec UploaderScenes PageSpec PageScenes.
Import PollingFacts WorldFacts UploadFacts UploaderFacts PageFacts.

(** What the uploader can do to its parent.  Whatever event runs in the
    uploader, once its emits have reached the parent, either the parent is
    as before, or it holds an error and no result, or the event was a status
    response with the status [done]: then the parent holds the body of that
    response as its result and no error, and has asked for the list of jobs
    again. *)
Theorem uploader_drives_app (w : World.t) (ev : Event) (a : App.State) :
  exec (App.relay_all (effects (handler w ev) (ui w))) a = a ∨
  (App.result (exec (App.relay_all (effects (handler w ev) (ui w))) a) = None ∧
   ∃ p, App.error (exec (App.relay_all (effects (handler w ev) (ui w))) a) = Some p) ∨
  (∃ j r, ev = EvFetchDone j (Ok r) ∧ ConvertResult.status r = "done" ∧
     App.result (exec (App.relay_all (effects (handler w ev) (ui w))) a) = Some r ∧
     App.error (exec (App.relay_all (effects (handler w ev) (ui w))) a) = None ∧
     App.banner_shown (exec (App.relay_all (effects (handler w ev) (ui w))) a) = false ∧
     App.FetchJobs ∈ effects (App.relay_all (effects (handler w ev) (ui w))) a).
Proof.
  remember (effects (handler w ev) (ui w)) as es eqn:Hes.
  set (s := ui w) in *. clearbody s. unfold effects in Hes.
  assert (∀ p, exec (App.relay_all [EmitError p]) a
               = App.set_result None (App.set_error (Some p) a)) as Herr by done.
  destruct ev as [picked| | | |id lc loaded total|id st txt|id|j' ms|j' out];
    cbn [handler] in Hes.
  - unfold onFileChange in Hes. run_handler. subst es. by left.
  - rewrite onSubmit_run in Hes.
    destruct (file s); [destruct (Js.endsWith _ _)|]; simpl in Hes; subst es;
      right; left; simpl; eauto.
  - unfold toggleDetails in Hes. run_handler. subst es. by left.
  - rewrite cancelUpload_run in Hes.
    destruct (xhr s); simpl in Hes; subst es; right; left; simpl; eauto.
  - rewrite onprogress_run in Hes. destruct lc; simpl in Hes; subst es; by left.
  - rewrite onload_run in Hes.
    destruct (is_2xx st); cbn [snd] in Hes;
      [|subst es; right; left; rewrite Herr; simpl; eauto].
    destruct txt as [json|]; cbn [snd] in Hes;
      [|subst es; right; left; rewrite Herr; simpl; eauto].
    cbv zeta in Hes. destruct (decide _); cbn [snd] in Hes;
      [subst es; right; left; rewrite Herr; simpl; eauto|].
    destruct (loading s); subst es; by left.
  - rewrite onerror_run in Hes. simpl in Hes. subst es.
    right; left; simpl; eauto.
  - rewrite poll_run in Hes. cbn [snd] in Hes. destruct (_ && _); subst es; by left.
  - destruct out as [| |res].
    + rewrite poll_resume_Rejected in Hes. cbn [snd] in Hes.
      destruct (loading s); subst es; by left.
    + rewrite poll_resume_NotOk in Hes. cbn [snd] in Hes.
      destruct (loading s); subst es; by left.
    + rewrite poll_resume_Ok in Hes.
      destruct (decide (ConvertResult.status res = "done")) as [Hd|Hd];
        cbn [snd] in Hes.
      * subst es. right; right. exists j', res.
        unfold App.banner_shown, App.relay_all, App.relay, App.onConvert,
          App.fetchJobs, App.skip.
        run_handler.
        destruct (decide (ConvertResult.job_id res = "")); simpl;
          split_and!; try done; apply list_elem_of_here.
      * destruct (decide _); cbn [snd] in Hes; subst es;
          [right; left; simpl; eauto|by left].
Qed.

(** Loading a job from the selector.  No request is made for the empty id.
    A load that fails leaves the result that was shown and shows an error
    with it, while the selector already names the job that was chosen; a
    load that succeeds shows the body as the result, without an error. *)
Theorem loadJob_failure_keeps_result (a : App.State) (chosen : string)
    (out : App.JobOutcome) :
  chosen ≠ "" →
  App.loadJob "" a = (tt, a, []) ∧
  effects (App.onSelect chosen) a = [App.FetchJob chosen] ∧
  App.selectedJobId (exec (App.loadJob_resume chosen out) (exec (App.onSelect chosen) a))
    = chosen ∧
  match out with
  | App.JobOk data =>
      App.result (exec (App.loadJob_resume chosen out) (exec (App.onSelect chosen) a))
        = Some data ∧
      App.banner_shown
        (exec (App.loadJob_resume chosen out) (exec (App.onSelect chosen) a)) = false
  | _ =>
      App.result (exec (App.loadJob_resume chosen out) (exec (App.onSelect chosen) a))
        = App.result a ∧
      App.banner_shown
        (exec (App.loadJob_resume chosen out) (exec (App.onSelect chosen) a)) = true
  end.
Proof.
  intros Hc.
  assert (App.onSelect chosen a
          = (tt, App.set_selectedJobId chosen a, [App.FetchJob chosen])) as Hsel.
  { unfold App.onSelect, App.loadJob. run_handler. by rewrite decide_False. }
  unfold exec at 2 4 6 8 10. unfold effects. rewrite Hsel. cbn [fst snd].
  split_and!.
  - unfold App.loadJob. by rewrite decide_True.
  - done.
  - destruct out; by run_handler.
  - unfold App.banner_shown. destruct out; run_handler; split; try done.
Qed.

Lemma loadJob_failure_keeps_result_witness :
  App.result
    (exec (App.loadJob_resume "job-9" App.JobNotOk)
       (exec (App.onSelect "job-9") (App.set_result (Some queued) App.init)))
  = Some queued ∧
  App.banner_shown
    (exec (App.loadJob_resume "job-9" App.JobNotOk)
       (exec (App.onSelect "job-9") (App.set_result (Some queued) App.init)))
  = true.
Proof.
  destruct (loadJob_failure_keeps_result (App.set_result (Some queued) App.init)
              "job-9" App.JobNotOk) as (_ & _ & _ & H).
  - discriminate.
  - exact H.
Defined.

End AppFacts.
